(** * Xen HVM attachment driver (src/arch/x86/drivers/xen/hvm.c)

    A shallow embedding of iPXE's Xen HVM PCI driver: the CPUID signature
    scan, the hypercall page installation, the MMIO bump allocator with its
    physmap bookkeeping, the shared-info / grant-table / XenStore mappers and
    the probe / remove sequences.

    Everything the driver calls but does not define (CPUID, MSR writes,
    memory allocators, the hypercalls, XenStore and the Xen bus) is an
    oracle of the environment.  Each call is recorded, with its arguments
    and its answer, in a chronological log; an oracle may answer from the
    whole log so far, so that a hypervisor with memory can be described. *)

From Stdlib Require Import ZArith List Bool Lia String.
Import ListNotations.
Open Scope Z_scope.

(** ** Machine integers *)

(** [unsigned int] and [uint32_t] arithmetic wraps modulo 2^32. *)
Definition u32 (x : Z) : Z := x mod 2 ^ 32.

(** The cast [( signed int ) i] of a 32-bit unsigned value. *)
Definition s32 (x : Z) : Z :=
  let y := u32 x in if y <? 2 ^ 31 then y else y - 2 ^ 32.

(** [uint64_t] arithmetic wraps modulo 2^64. *)
Definition u64 (x : Z) : Z := x mod 2 ^ 64.

(** The file sits in arch/x86 and is built for i386 and for x86_64:
    [size_t], [unsigned long] and [physaddr_t] are 32 bits wide in the
    first build and 64 bits wide in the second. *)
Inductive data_model : Type := ILP32 | LP64.

Definition long_bits (m : data_model) : Z :=
  match m with ILP32 => 32 | LP64 => 64 end.

Definition ulong (m : data_model) (x : Z) : Z := x mod 2 ^ long_bits m.

Definition NULL : Z := 0.

(** ** Declarations taken from headers

    hvm.h, ipxe/io.h and the Xen public headers are not part of the
    translated file; the constants they declare are parameters of the
    model.  [PAGE_SIZE] is an [int] constant expression, so that
    [pages * PAGE_SIZE] with [pages] an [unsigned int] is a 32-bit
    unsigned product. *)
Record headers : Type := {
  abi : data_model;
  PAGE_SIZE : Z;
  HVM_CPUID_MIN : Z;
  HVM_CPUID_MAX : Z;
  HVM_CPUID_STEP : Z;
  HVM_CPUID_MAGIC : list Z;
  HVM_CPUID_VERSION : Z;
  HVM_CPUID_PAGES : Z;
  HVM_MMIO_BAR : Z;
  DOMID_SELF : Z;
  XENMAPSPACE_shared_info : Z;
  XENMAPSPACE_grant_table : Z;
  HVM_PARAM_STORE_EVTCHN : Z;
  HVM_PARAM_STORE_PFN : Z;
  sizeof_grant_entry : Z
}.

(** ** Status codes

    iPXE status codes are 0 or a negated error number; [EXEN ( xenrc )]
    builds an error number out of a hypervisor status.  The error numbers
    are kept symbolic: [RC_ERR e] stands for the C value [-e], which is
    never 0. *)
Inductive errno : Type :=
| ENODEV
| ENOMEM
| ENOTTY
| EXEN (xenrc : Z)
| EOTHER (code : Z).

Inductive rc : Type :=
| RC_OK
| RC_ERR (e : errno).

(** ** Structures *)

(** Result registers of one CPUID leaf. *)
Record cpuid_regs : Type := {
  eax : Z; ebx : Z; ecx : Z; edx : Z
}.

(** The fields of [struct xen_add_to_physmap] the driver fills in. *)
Record xen_add_to_physmap : Type := {
  add_domid : Z; add_idx : Z; add_space : Z; add_gpfn : Z
}.

(** The fields of [struct xen_remove_from_physmap] the driver uses. *)
Record xen_remove_from_physmap : Type := {
  remove_domid : Z; remove_gpfn : Z
}.

(** [struct hvm_device], with the parts of the embedded
    [struct xen_hypervisor] that the driver writes. *)
Record hvm_device : Type := {
  xen_hypercall : Z;
  xen_shared : Z;
  xen_grant_table : Z;
  xen_grant_count : Z;
  xen_store_intf : Z;
  xen_store_port : Z;
  cpuid_base : Z;
  hypercall_len : Z;
  mmio : Z;
  mmio_offset : Z;
  mmio_len : Z
}.

(** What [zalloc] hands out. *)
Definition hvm_zero : hvm_device :=
  {| xen_hypercall := NULL; xen_shared := NULL; xen_grant_table := NULL;
     xen_grant_count := 0; xen_store_intf := NULL; xen_store_port := 0;
     cpuid_base := 0; hypercall_len := 0; mmio := 0; mmio_offset := 0;
     mmio_len := 0 |}.

Definition set_xen_hypercall (v : Z) (d : hvm_device) : hvm_device :=
  {| xen_hypercall := v; xen_shared := xen_shared d;
     xen_grant_table := xen_grant_table d; xen_grant_count := xen_grant_count d;
     xen_store_intf := xen_store_intf d; xen_store_port := xen_store_port d;
     cpuid_base := cpuid_base d; hypercall_len := hypercall_len d;
     mmio := mmio d; mmio_offset := mmio_offset d; mmio_len := mmio_len d |}.

Definition set_xen_shared (v : Z) (d : hvm_device) : hvm_device :=
  {| xen_hypercall := xen_hypercall d; xen_shared := v;
     xen_grant_table := xen_grant_table d; xen_grant_count := xen_grant_count d;
     xen_store_intf := xen_store_intf d; xen_store_port := xen_store_port d;
     cpuid_base := cpuid_base d; hypercall_len := hypercall_len d;
     mmio := mmio d; mmio_offset := mmio_offset d; mmio_len := mmio_len d |}.

Definition set_xen_grant_table (v : Z) (d : hvm_device) : hvm_device :=
  {| xen_hypercall := xen_hypercall d; xen_shared := xen_shared d;
     xen_grant_table := v; xen_grant_count := xen_grant_count d;
     xen_store_intf := xen_store_intf d; xen_store_port := xen_store_port d;
     cpuid_base := cpuid_base d; hypercall_len := hypercall_len d;
     mmio := mmio d; mmio_offset := mmio_offset d; mmio_len := mmio_len d |}.

Definition set_xen_grant_count (v : Z) (d : hvm_device) : hvm_device :=
  {| xen_hypercall := xen_hypercall d; xen_shared := xen_shared d;
     xen_grant_table := xen_grant_table d; xen_grant_count := v;
     xen_store_intf := xen_store_intf d; xen_store_port := xen_store_port d;
     cpuid_base := cpuid_base d; hypercall_len := hypercall_len d;
     mmio := mmio d; mmio_offset := mmio_offset d; mmio_len := mmio_len d |}.

Definition set_xen_store_intf (v : Z) (d : hvm_device) : hvm_device :=
  {| xen_hypercall := xen_hypercall d; xen_shared := xen_shared d;
     xen_grant_table := xen_grant_table d; xen_grant_count := xen_grant_count d;
     xen_store_intf := v; xen_store_port := xen_store_port d;
     cpuid_base := cpuid_base d; hypercall_len := hypercall_len d;
     mmio := mmio d; mmio_offset := mmio_offset d; mmio_len := mmio_len d |}.

Definition set_xen_store_port (v : Z) (d : hvm_device) : hvm_device :=
  {| xen_hypercall := xen_hypercall d; xen_shared := xen_shared d;
     xen_grant_table := xen_grant_table d; xen_grant_count := xen_grant_count d;
     xen_store_intf := xen_store_intf d; xen_store_port := v;
     cpuid_base := cpuid_base d; hypercall_len := hypercall_len d;
     mmio := mmio d; mmio_offset := mmio_offset d; mmio_len := mmio_len d |}.

Definition set_cpuid_base (v : Z) (d : hvm_device) : hvm_device :=
  {| xen_hypercall := xen_hypercall d; xen_shared := xen_shared d;
     xen_grant_table := xen_grant_table d; xen_grant_count := xen_grant_count d;
     xen_store_intf := xen_store_intf d; xen_store_port := xen_store_port d;
     cpuid_base := v; hypercall_len := hypercall_len d;
     mmio := mmio d; mmio_offset := mmio_offset d; mmio_len := mmio_len d |}.

Definition set_hypercall_len (v : Z) (d : hvm_device) : hvm_device :=
  {| xen_hypercall := xen_hypercall d; xen_shared := xen_shared d;
     xen_grant_table := xen_grant_table d; xen_grant_count := xen_grant_count d;
     xen_store_intf := xen_store_intf d; xen_store_port := xen_store_port d;
     cpuid_base := cpuid_base d; hypercall_len := v;
     mmio := mmio d; mmio_offset := mmio_offset d; mmio_len := mmio_len d |}.

Definition set_mmio (v : Z) (d : hvm_device) : hvm_device :=
  {| xen_hypercall := xen_hypercall d; xen_shared := xen_shared d;
     xen_grant_table := xen_grant_table d; xen_grant_count := xen_grant_count d;
     xen_store_intf := xen_store_intf d; xen_store_port := xen_store_port d;
     cpuid_base := cpuid_base d; hypercall_len := hypercall_len d;
     mmio := v; mmio_offset := mmio_offset d; mmio_len := mmio_len d |}.

Definition set_mmio_offset (v : Z) (d : hvm_device) : hvm_device :=
  {| xen_hypercall := xen_hypercall d; xen_shared := xen_shared d;
     xen_grant_table := xen_grant_table d; xen_grant_count := xen_grant_count d;
     xen_store_intf := xen_store_intf d; xen_store_port := xen_store_port d;
     cpuid_base := cpuid_base d; hypercall_len := hypercall_len d;
     mmio := mmio d; mmio_offset := v; mmio_len := mmio_len d |}.

Definition set_mmio_len (v : Z) (d : hvm_device) : hvm_device :=
  {| xen_hypercall := xen_hypercall d; xen_shared := xen_shared d;
     xen_grant_table := xen_grant_table d; xen_grant_count := xen_grant_count d;
     xen_store_intf := xen_store_intf d; xen_store_port := xen_store_port d;
     cpuid_base := cpuid_base d; hypercall_len := hypercall_len d;
     mmio := mmio d; mmio_offset := mmio_offset d; mmio_len := v |}.

(** ** Observable events

    One constructor per external routine the driver calls; the last
    arguments are what the routine answered. *)
Inductive event : Type :=
| EvZalloc (ok : bool)
| EvPciBarStart (bar : Z) (start : Z)
| EvPciBarSize (bar : Z) (size : Z)
| EvAdjustPciDevice
| EvCpuid (leaf : Z) (regs : cpuid_regs)
| EvMallocDma (len align : Z) (ptr : Z)
| EvFreeDma (ptr len : Z)
| EvWrmsr (msr value : Z)
| EvXenverVersion (version : Z)
| EvXenverExtraversion (xenrc : Z)
| EvIoremap (phys len : Z) (ptr : Z)
| EvIounmap (ptr : Z)
| EvAddToPhysmap (add : xen_add_to_physmap) (xenrc : Z)
| EvRemoveFromPhysmap (remove : xen_remove_from_physmap) (xenrc : Z)
| EvQuerySize (dom : Z) (xenrc nr_frames : Z)
| EvSetVersion (requested : Z) (xenrc reported : Z)
| EvGetParam (index : Z) (xenrc value : Z)
| EvReadl (addr : Z) (value : Z)
| EvXenstoreRead (key : string) (result : rc)
| EvXenbusProbe (result : rc)
| EvXenbusRemove
| EvPciSetDrvdata
| EvFreeString
| EvFree.

Definition trace : Type := list event.

(** ** The environment

    The oracles take the log of everything that happened before the call.
    [cpuid], [virt_to_phys] and the PCI BAR registers are plain functions.
    [stack_remove] is the content of the stack slot that [hvm_ioremap]
    gets for its local [remove]: the function never initialises it. *)
Record env : Type := {
  zalloc : trace -> bool;
  pci_bar_start : Z -> Z;
  pci_bar_size : Z -> Z;
  cpuid : Z -> cpuid_regs;
  malloc_dma : trace -> Z -> Z -> Z;
  virt_to_phys : Z -> Z;
  ioremap : trace -> Z -> Z -> Z;
  xenver_version : trace -> Z;
  xenver_extraversion : trace -> Z;
  xenmem_add_to_physmap : trace -> xen_add_to_physmap -> Z;
  xenmem_remove_from_physmap : trace -> xen_remove_from_physmap -> Z;
  xengrant_query_size : trace -> Z -> Z * Z;
  xengrant_set_version : trace -> Z -> Z * Z;
  xen_hvm_get_param : trace -> Z -> Z * Z;
  readl : trace -> Z -> Z;
  xenstore_read : trace -> string -> rc;
  xenbus_probe : trace -> rc;
  stack_remove : trace -> xen_remove_from_physmap
}.

(** ** State and the driver monad *)
Record world : Type := {
  hvm : hvm_device;
  log : trace
}.

Definition M (A : Type) : Type := world -> A * world.

Definition ret {A : Type} (a : A) : M A := fun w => (a, w).

Definition bind {A B : Type} (m : M A) (k : A -> M B) : M B :=
  fun w => let (a, w') := m w in k a w'.

Declare Scope drv_scope.
Delimit Scope drv_scope with drv.
Notation "x <- m ;; k" := (bind m (fun x => k))
  (at level 100, m at next level, right associativity) : drv_scope.
Notation "m ;;; k" := (bind m (fun _ => k))
  (at level 100, right associativity) : drv_scope.
Open Scope drv_scope.

(** Read the device structure. *)
Definition get_hvm : M hvm_device := fun w => (hvm w, w).

(** Write to the device structure. *)
Definition modify_hvm (f : hvm_device -> hvm_device) : M unit :=
  fun w => (tt, {| hvm := f (hvm w); log := log w |}).

(** Call an external routine: ask the oracle, log the call. *)
Definition call {A : Type} (oracle : trace -> A) (ev : A -> event) : M A :=
  fun w => let r := oracle (log w) in
           (r, {| hvm := hvm w; log := log w ++ [ev r] |}).

(** Read an indeterminate value (nothing observable happens). *)
Definition peek {A : Type} (oracle : trace -> A) : M A :=
  fun w => (oracle (log w), w).

(** ** Byte-level helpers *)

(** The four bytes of a 32-bit register as they lie in memory (x86 is
    little-endian). *)
Definition le_bytes32 (x : Z) : list Z :=
  [ x mod 256; (x / 256) mod 256; (x / 65536) mod 256;
    (x / 16777216) mod 256 ].

(** The packed local [signature] of [hvm_cpuid_base]: ebx, ecx, edx. *)
Definition signature_bytes (r : cpuid_regs) : list Z :=
  le_bytes32 (ebx r) ++ le_bytes32 (ecx r) ++ le_bytes32 (edx r).

(** [memcmp ( a, b, n )]: the difference at the first position where the
    two byte sequences differ, 0 when the first [n] bytes agree.  Running
    off the end of an operand counts as a difference. *)
Fixpoint memcmp (a b : list Z) (n : nat) : Z :=
  match n with
  | O => 0
  | S n' =>
      match a, b with
      | x :: a', y :: b' => if x =? y then memcmp a' b' n' else x - y
      | [], _ => -1
      | _ :: _, [] => 1
      end
  end.

(** ** The driver *)
Section Driver.

Variable H : headers.
Variable E : env.

(** [size_t] / [unsigned long] / [physaddr_t] arithmetic of this build. *)
Definition sz (x : Z) : Z := ulong (abi H) x.

(** *** hvm_cpuid_base *)

(** The scan loop
    [for ( base = HVM_CPUID_MIN ; base <= HVM_CPUID_MAX ;
           base += HVM_CPUID_STEP )]; [base] is a [uint32_t].  [fuel]
    bounds the number of loop tests. *)
Fixpoint hvm_cpuid_scan (fuel : nat) (base : Z) : M rc :=
  match fuel with
  | O => ret (RC_ERR ENODEV)
  | S fuel' =>
      if base <=? HVM_CPUID_MAX H then
        regs <- call (fun _ => cpuid E base) (EvCpuid base) ;;
        if memcmp (signature_bytes regs) (HVM_CPUID_MAGIC H) 12 =? 0 then
          modify_hvm (set_cpuid_base base) ;;;
          version <- call (fun _ => cpuid E (u32 (base + HVM_CPUID_VERSION H)))
                          (EvCpuid (u32 (base + HVM_CPUID_VERSION H))) ;;
          ret RC_OK
        else
          hvm_cpuid_scan fuel' (u32 (base + HVM_CPUID_STEP H))
      else
        ret (RC_ERR ENODEV)
  end.

(** Number of loop tests that the scan performs at most when the range
    constants keep the counter from wrapping ([cpuid_range_ok] and
    [hvm_cpuid_scan_spec] below). *)
Definition hvm_cpuid_fuel : nat :=
  Z.to_nat ((HVM_CPUID_MAX H - HVM_CPUID_MIN H) / HVM_CPUID_STEP H) + 2.

Definition hvm_cpuid_base : M rc :=
  hvm_cpuid_scan hvm_cpuid_fuel (u32 (HVM_CPUID_MIN H)).

(** *** hvm_map_hypercall, hvm_unmap_hypercall *)

Definition hvm_map_hypercall : M rc :=
  d <- get_hvm ;;
  regs <- call (fun _ => cpuid E (u32 (cpuid_base d + HVM_CPUID_PAGES H)))
               (EvCpuid (u32 (cpuid_base d + HVM_CPUID_PAGES H))) ;;
  let pages := u32 (eax regs) in
  let msr := u32 (ebx regs) in
  (* Allocate pages *)
  let len := sz (u32 (pages * PAGE_SIZE H)) in
  modify_hvm (set_hypercall_len len) ;;;
  hypercall <- call (fun h => malloc_dma E h len (PAGE_SIZE H))
                    (EvMallocDma len (PAGE_SIZE H)) ;;
  modify_hvm (set_xen_hypercall hypercall) ;;;
  if hypercall =? NULL then
    ret (RC_ERR ENOMEM)
  else
    let hypercall_phys := virt_to_phys E hypercall in
    (* Write to MSR *)
    call (fun _ => tt) (fun _ => EvWrmsr msr hypercall_phys) ;;;
    (* Check that hypercall mechanism is working *)
    version <- call (xenver_version E) EvXenverVersion ;;
    xenrc <- call (xenver_extraversion E) EvXenverExtraversion ;;
    if negb (xenrc =? 0) then
      ret (RC_ERR (EXEN xenrc))
    else
      ret RC_OK.

Definition hvm_unmap_hypercall : M unit :=
  d <- get_hvm ;;
  call (fun _ => tt) (fun _ => EvFreeDma (xen_hypercall d) (hypercall_len d)).

(** *** hvm_ioremap *)

(** The loop [for ( i = 0 ; i < pages ; i++ )] adding pages to the
    physical address space.  The answer is [None] when the loop runs to
    its end and [Some i] when it leaves through
    [goto err_add_to_physmap] with the loop counter at [i].  The caller
    gives more fuel than there are iterations ([hvm_ioremap_add_fuel]
    below). *)
Fixpoint hvm_ioremap_add (fuel : nat) (space pages mmio_phys i : Z)
  : M (option Z) :=
  match fuel with
  | O => ret None
  | S fuel' =>
      if i <? pages then
        let add := {| add_domid := DOMID_SELF H;
                      add_idx := i;
                      add_space := space;
                      add_gpfn := sz (sz (mmio_phys / PAGE_SIZE H) + i) |} in
        xenrc <- call (fun h => xenmem_add_to_physmap E h add)
                      (EvAddToPhysmap add) ;;
        if negb (xenrc =? 0) then
          ret (Some i)
        else
          hvm_ioremap_add fuel' space pages mmio_phys (u32 (i + 1))
      else
        ret None
  end.

(** The unwinding loop [for ( i-- ; ( signed int ) i >= 0 ; i-- )] (the
    caller performs the initial [i--]).  The body stores the frame number
    in [add.gpfn] and hands [remove] to the hypervisor. *)
Fixpoint hvm_ioremap_undo (fuel : nat) (mmio_phys i : Z)
    (add : xen_add_to_physmap) (remove : xen_remove_from_physmap)
  : M unit :=
  match fuel with
  | O => ret tt
  | S fuel' =>
      if 0 <=? s32 i then
        let remove := {| remove_domid := DOMID_SELF H;
                         remove_gpfn := remove_gpfn remove |} in
        let add := {| add_domid := add_domid add;
                      add_idx := add_idx add;
                      add_space := add_space add;
                      add_gpfn := sz (sz (mmio_phys / PAGE_SIZE H) + i) |} in
        call (fun h => xenmem_remove_from_physmap E h remove)
             (EvRemoveFromPhysmap remove) ;;;
        hvm_ioremap_undo fuel' mmio_phys (u32 (i - 1)) add remove
      else
        ret tt
  end.

Definition hvm_ioremap (space pages : Z) : M Z :=
  let pages := u32 pages in
  d <- get_hvm ;;
  (* Check for available space *)
  let len := sz (u32 (pages * PAGE_SIZE H)) in
  if sz (mmio_offset d + len) >? mmio_len d then
    ret NULL
  else
    (* Map this space *)
    mmio <- call (fun h => ioremap E h (sz (mmio d + mmio_offset d)) len)
                 (EvIoremap (sz (mmio d + mmio_offset d)) len) ;;
    if mmio =? NULL then
      ret NULL
    else
      let mmio_phys := virt_to_phys E mmio in
      (* Add to physical address space *)
      r <- hvm_ioremap_add (S (Z.to_nat pages)) space pages mmio_phys 0 ;;
      match r with
      | None =>
          (* Update offset *)
          modify_hvm (set_mmio_offset (sz (mmio_offset d + len))) ;;;
          ret mmio
      | Some i =>
          remove <- peek (stack_remove E) ;;
          let add := {| add_domid := DOMID_SELF H;
                        add_idx := i;
                        add_space := space;
                        add_gpfn := sz (sz (mmio_phys / PAGE_SIZE H) + i) |} in
          hvm_ioremap_undo (S (Z.to_nat pages)) mmio_phys (u32 (i - 1))
                           add remove ;;;
          call (fun _ => tt) (fun _ => EvIounmap mmio) ;;;
          ret NULL
      end.

(** *** hvm_iounmap *)

Fixpoint hvm_iounmap_remove (fuel : nat) (pages mmio_phys i : Z) : M unit :=
  match fuel with
  | O => ret tt
  | S fuel' =>
      if i <? pages then
        let remove := {| remove_domid := DOMID_SELF H;
                         remove_gpfn :=
                           sz (sz (mmio_phys / PAGE_SIZE H) + i) |} in
        xenrc <- call (fun h => xenmem_remove_from_physmap E h remove)
                      (EvRemoveFromPhysmap remove) ;;
        (* Nothing we can do about a failure *)
        hvm_iounmap_remove fuel' pages mmio_phys (u32 (i + 1))
      else
        ret tt
  end.

Definition hvm_iounmap (mmio pages : Z) : M unit :=
  let pages := u32 pages in
  let mmio_phys := virt_to_phys E mmio in
  (* Unmap this space *)
  call (fun _ => tt) (fun _ => EvIounmap mmio) ;;;
  (* Remove from physical address space *)
  hvm_iounmap_remove (S (Z.to_nat pages)) pages mmio_phys 0.

(** *** hvm_map_shared_info, hvm_unmap_shared_info *)

Definition hvm_map_shared_info : M rc :=
  (* Map shared info page *)
  shared <- hvm_ioremap (XENMAPSPACE_shared_info H) 1 ;;
  modify_hvm (set_xen_shared shared) ;;;
  if shared =? NULL then
    ret (RC_ERR ENOMEM)
  else
    (* Sanity check: the wallclock time is read inside DBGC2 and only
       printed *)
    wc_sec <- call (fun h => readl E h shared) (EvReadl shared) ;;
    ret RC_OK.

Definition hvm_unmap_shared_info : M unit :=
  d <- get_hvm ;;
  hvm_iounmap (xen_shared d) 1.

(** *** hvm_map_grant, hvm_unmap_grant *)

Definition hvm_map_grant : M rc :=
  (* Get grant table size *)
  size <- call (fun h => xengrant_query_size E h (DOMID_SELF H))
               (fun r => EvQuerySize (DOMID_SELF H) (fst r) (snd r)) ;;
  let nr_frames := u32 (snd size) in
  if negb (fst size =? 0) then
    ret (RC_ERR (EXEN (fst size)))
  else
    let len := sz (u32 (nr_frames * PAGE_SIZE H)) in
    (* Configure to use version 2 tables *)
    version <- call (fun h => xengrant_set_version E h 2)
                    (fun r => EvSetVersion 2 (fst r) (snd r)) ;;
    if negb (fst version =? 0) then
      ret (RC_ERR (EXEN (fst version)))
    else if negb (u32 (snd version) =? 2) then
      ret (RC_ERR ENOTTY)
    else
      (* Map grant table *)
      table <- hvm_ioremap (XENMAPSPACE_grant_table H) nr_frames ;;
      modify_hvm (set_xen_grant_table table) ;;;
      if table =? NULL then
        ret (RC_ERR ENODEV)
      else
        modify_hvm (set_xen_grant_count (u32 (len / sizeof_grant_entry H))) ;;;
        ret RC_OK.

Definition hvm_unmap_grant : M unit :=
  d <- get_hvm ;;
  let len := sz (xen_grant_count d * sizeof_grant_entry H) in
  hvm_iounmap (xen_grant_table d) (len / PAGE_SIZE H).

(** *** hvm_map_xenstore, hvm_unmap_xenstore *)

Definition hvm_map_xenstore : M rc :=
  (* Get XenStore event channel *)
  evtchn <- call (fun h => xen_hvm_get_param E h (HVM_PARAM_STORE_EVTCHN H))
                 (fun r => EvGetParam (HVM_PARAM_STORE_EVTCHN H)
                                      (fst r) (snd r)) ;;
  if negb (fst evtchn =? 0) then
    ret (RC_ERR (EXEN (fst evtchn)))
  else
    modify_hvm (set_xen_store_port (u32 (snd evtchn))) ;;;
    (* Get XenStore PFN *)
    pfn <- call (fun h => xen_hvm_get_param E h (HVM_PARAM_STORE_PFN H))
                (fun r => EvGetParam (HVM_PARAM_STORE_PFN H)
                                     (fst r) (snd r)) ;;
    if negb (fst pfn =? 0) then
      ret (RC_ERR (EXEN (fst pfn)))
    else
      let xenstore_phys := sz (u64 (u64 (snd pfn) * PAGE_SIZE H)) in
      (* Map XenStore *)
      intf <- call (fun h => ioremap E h xenstore_phys (PAGE_SIZE H))
                   (EvIoremap xenstore_phys (PAGE_SIZE H)) ;;
      modify_hvm (set_xen_store_intf intf) ;;;
      if intf =? NULL then
        ret (RC_ERR ENODEV)
      else
        (* Check that XenStore is working *)
        r <- call (fun h => xenstore_read E h "name"%string)
                  (EvXenstoreRead "name"%string) ;;
        match r with
        | RC_ERR e => ret (RC_ERR e)
        | RC_OK =>
            call (fun _ => tt) (fun _ => EvFreeString) ;;;
            ret RC_OK
        end.

Definition hvm_unmap_xenstore : M unit :=
  d <- get_hvm ;;
  call (fun _ => tt) (fun _ => EvIounmap (xen_store_intf d)).

(** *** hvm_probe, hvm_remove *)

Definition xenbus_remove : M unit :=
  call (fun _ => tt) (fun _ => EvXenbusRemove).

Definition free_hvm : M unit :=
  call (fun _ => tt) (fun _ => EvFree).

Definition hvm_probe : M rc :=
  (* Allocate and initialise structure *)
  ok <- call (zalloc E) EvZalloc ;;
  if negb ok then
    ret (RC_ERR ENOMEM)
  else
    modify_hvm (fun _ => hvm_zero) ;;;
    start <- call (fun _ => pci_bar_start E (HVM_MMIO_BAR H))
                  (EvPciBarStart (HVM_MMIO_BAR H)) ;;
    modify_hvm (set_mmio (sz start)) ;;;
    size <- call (fun _ => pci_bar_size E (HVM_MMIO_BAR H))
                 (EvPciBarSize (HVM_MMIO_BAR H)) ;;
    modify_hvm (set_mmio_len (sz size)) ;;;
    (* Fix up PCI device *)
    call (fun _ => tt) (fun _ => EvAdjustPciDevice) ;;;
    (* Attach to hypervisor *)
    rc1 <- hvm_cpuid_base ;;
    match rc1 with
    | RC_ERR e => free_hvm ;;; ret (RC_ERR e)
    | RC_OK =>
    rc2 <- hvm_map_hypercall ;;
    match rc2 with
    | RC_ERR e => free_hvm ;;; ret (RC_ERR e)
    | RC_OK =>
    rc3 <- hvm_map_shared_info ;;
    match rc3 with
    | RC_ERR e =>
        hvm_unmap_hypercall ;;; free_hvm ;;; ret (RC_ERR e)
    | RC_OK =>
    rc4 <- hvm_map_grant ;;
    match rc4 with
    | RC_ERR e =>
        hvm_unmap_shared_info ;;; hvm_unmap_hypercall ;;; free_hvm ;;;
        ret (RC_ERR e)
    | RC_OK =>
    rc5 <- hvm_map_xenstore ;;
    match rc5 with
    | RC_ERR e =>
        hvm_unmap_grant ;;; hvm_unmap_shared_info ;;;
        hvm_unmap_hypercall ;;; free_hvm ;;; ret (RC_ERR e)
    | RC_OK =>
    (* Probe Xen devices *)
    rc6 <- call (xenbus_probe E) EvXenbusProbe ;;
    match rc6 with
    | RC_ERR e =>
        hvm_unmap_xenstore ;;; hvm_unmap_grant ;;;
        hvm_unmap_shared_info ;;; hvm_unmap_hypercall ;;; free_hvm ;;;
        ret (RC_ERR e)
    | RC_OK =>
        call (fun _ => tt) (fun _ => EvPciSetDrvdata) ;;;
        ret RC_OK
    end end end end end end.

Definition hvm_remove : M unit :=
  xenbus_remove ;;;
  hvm_unmap_xenstore ;;;
  hvm_unmap_grant ;;;
  hvm_unmap_shared_info ;;;
  hvm_unmap_hypercall ;;;
  free_hvm.

End Driver.

(** * Specification-side definitions *)

(** ** The MMIO allocator *)

(** The byte length [hvm_ioremap] computes for a request of [pages]
    pages: a 32-bit product stored in a [size_t]. *)
Definition ioremap_len (H : headers) (pages : Z) : Z :=
  sz H (u32 (u32 pages * PAGE_SIZE H)).

(** The same environment with another content behind [readl]. *)
Definition with_readl (f : trace -> Z -> Z) (E : env) : env :=
  {| zalloc := zalloc E;
     pci_bar_start := pci_bar_start E;
     pci_bar_size := pci_bar_size E;
     cpuid := cpuid E;
     malloc_dma := malloc_dma E;
     virt_to_phys := virt_to_phys E;
     ioremap := ioremap E;
     xenver_version := xenver_version E;
     xenver_extraversion := xenver_extraversion E;
     xenmem_add_to_physmap := xenmem_add_to_physmap E;
     xenmem_remove_from_physmap := xenmem_remove_from_physmap E;
     xengrant_query_size := xengrant_query_size E;
     xengrant_set_version := xengrant_set_version E;
     xen_hvm_get_param := xen_hvm_get_param E;
     readl := f;
     xenstore_read := xenstore_read E;
     xenbus_probe := xenbus_probe E;
     stack_remove := stack_remove E |}.

(** ** Resource accounting over a log *)

Fixpoint remove_all (x : Z) (l : list Z) : list Z :=
  match l with
  | [] => []
  | y :: l' => if x =? y then remove_all x l' else y :: remove_all x l'
  end.

(** The hypervisor's physical address map, read off the log: "add" and
    "remove" calls alter the map, so a frame is in it when an accepted
    add-to-physmap request named it and no accepted remove-from-physmap
    request named it since. *)
Fixpoint physmap_frames (t : trace) (frames : list Z) : list Z :=
  match t with
  | [] => frames
  | EvAddToPhysmap a xenrc :: t' =>
      physmap_frames t'
        (if xenrc =? 0 then frames ++ [add_gpfn a] else frames)
  | EvRemoveFromPhysmap r xenrc :: t' =>
      physmap_frames t'
        (if xenrc =? 0 then remove_all (remove_gpfn r) frames else frames)
  | _ :: t' => physmap_frames t' frames
  end.

(** Blocks obtained from [malloc_dma] and not handed to [free_dma]. *)
Fixpoint dma_held (t : trace) (held : list Z) : list Z :=
  match t with
  | [] => held
  | EvMallocDma _ _ p :: t' =>
      dma_held t' (if p =? NULL then held else held ++ [p])
  | EvFreeDma p _ :: t' => dma_held t' (remove_all p held)
  | _ :: t' => dma_held t' held
  end.

(** Virtual mappings obtained from [ioremap] and not handed to
    [iounmap]. *)
Fixpoint io_mapped (t : trace) (mapped : list Z) : list Z :=
  match t with
  | [] => mapped
  | EvIoremap _ _ p :: t' =>
      io_mapped t' (if p =? NULL then mapped else mapped ++ [p])
  | EvIounmap p :: t' => io_mapped t' (remove_all p mapped)
  | _ :: t' => io_mapped t' mapped
  end.

(** ** Stages and the undo stack *)

(** A stage of the attachment: how it is acquired and how it is
    released. *)
Record stage : Type := {
  acquire : M rc;
  release : M unit
}.

Fixpoint run_all (actions : list (M unit)) : M unit :=
  match actions with
  | [] => ret tt
  | a :: rest => a ;;; run_all rest
  end.

(** The orchestrator in the words of the specification: the stages are
    run in order, with an ordered list of undo actions pushed as each
    stage succeeds, popped and executed in reverse on failure. *)
Fixpoint attach_with_undo (todo : list stage) (undo : list (M unit)) : M rc :=
  match todo with
  | [] => ret RC_OK
  | s :: rest =>
      r <- acquire s ;;
      match r with
      | RC_OK => attach_with_undo rest (release s :: undo)
      | RC_ERR e => run_all undo ;;; ret (RC_ERR e)
      end
  end.

(** Run the acquisitions of a list of stages; [Some] when all succeed. *)
Fixpoint acquire_all (l : list stage) (w : world) : option world :=
  match l with
  | [] => Some w
  | s :: rest =>
      match acquire s w with
      | (RC_OK, w') => acquire_all rest w'
      | (RC_ERR _, _) => None
      end
  end.

(** The acquisitions of [hvm_probe] in program order, each with the
    release that [hvm_remove] and the error labels pair it with.  The
    locator acquires nothing. *)
Definition hvm_stages (H : headers) (E : env) : list stage :=
  [ {| acquire := hvm_cpuid_base H E; release := ret tt |};
    {| acquire := hvm_map_hypercall H E; release := hvm_unmap_hypercall |};
    {| acquire := hvm_map_shared_info H E;
       release := hvm_unmap_shared_info H E |};
    {| acquire := hvm_map_grant H E; release := hvm_unmap_grant H E |};
    {| acquire := hvm_map_xenstore H E; release := hvm_unmap_xenstore |};
    {| acquire := call (xenbus_probe E) EvXenbusProbe;
       release := xenbus_remove |} ].

(** The part of [hvm_probe] before the first stage: allocate and
    initialise the structure, fix up the PCI device. *)
Definition hvm_probe_init (H : headers) (E : env) : M bool :=
  ok <- call (zalloc E) EvZalloc ;;
  if negb ok then
    ret false
  else
    modify_hvm (fun _ => hvm_zero) ;;;
    start <- call (fun _ => pci_bar_start E (HVM_MMIO_BAR H))
                  (EvPciBarStart (HVM_MMIO_BAR H)) ;;
    modify_hvm (set_mmio (sz H start)) ;;;
    size <- call (fun _ => pci_bar_size E (HVM_MMIO_BAR H))
                 (EvPciBarSize (HVM_MMIO_BAR H)) ;;
    modify_hvm (set_mmio_len (sz H size)) ;;;
    call (fun _ => tt) (fun _ => EvAdjustPciDevice) ;;;
    ret true.

Definition probe_with_undo (H : headers) (E : env) : M rc :=
  ok <- hvm_probe_init H E ;;
  if negb ok then
    ret (RC_ERR ENOMEM)
  else
    r <- attach_with_undo (hvm_stages H E) [] ;;
    match r with
    | RC_OK => call (fun _ => tt) (fun _ => EvPciSetDrvdata) ;;; ret RC_OK
    | RC_ERR e => free_hvm ;;; ret (RC_ERR e)
    end.

(** ** The scanned CPUID range *)

(** What the range constants must satisfy for the scan loop, whose
    counter is a [uint32_t], to walk from the minimum to the maximum and
    stop: the counter must not wrap before it exceeds the maximum. *)
Definition cpuid_range_ok (H : headers) : Prop :=
  0 <= HVM_CPUID_MIN H <= HVM_CPUID_MAX H /\
  0 < HVM_CPUID_STEP H /\
  HVM_CPUID_MAX H + HVM_CPUID_STEP H < 2 ^ 32.

(** [count] leaves starting at [base], one stride apart. *)
Definition leaves_from (H : headers) (base : Z) (count : nat) : list Z :=
  map (fun j => base + Z.of_nat j * HVM_CPUID_STEP H) (seq 0 count).

(** The leaves from the minimum to the maximum at the stride. *)
Definition scanned_leaves (H : headers) : list Z :=
  leaves_from H (HVM_CPUID_MIN H)
    (Z.to_nat ((HVM_CPUID_MAX H - HVM_CPUID_MIN H) / HVM_CPUID_STEP H) + 1).

Fixpoint bytes_eqb (a b : list Z) : bool :=
  match a, b with
  | [], [] => true
  | x :: a', y :: b' => (x =? y) && bytes_eqb a' b'
  | _, _ => false
  end.

(** The three result registers, as twelve bytes, are the twelve bytes of
    the magic signature. *)
Definition magic_match (H : headers) (r : cpuid_regs) : bool :=
  bytes_eqb (signature_bytes r) (firstn 12 (HVM_CPUID_MAGIC H)).

(** The elements of a list up to and including the first that satisfies
    [p]. *)
Fixpoint upto_first (p : Z -> bool) (l : list Z) : list Z :=
  match l with
  | [] => []
  | x :: l' => if p x then [x] else x :: upto_first p l'
  end.

Definition cpuid_events (E : env) (leaves : list Z) : trace :=
  map (fun leaf => EvCpuid leaf (cpuid E leaf)) leaves.

(** ** A concrete platform

    The values iPXE's hvm.h and the Xen public headers give to the
    constants, on the i386 build, and a family of mock hypervisors used to
    run the driver on concrete inputs. *)

Definition ipxe_headers : headers :=
  {| abi := ILP32;
     PAGE_SIZE := 4096;
     HVM_CPUID_MIN := 0x40000000;
     HVM_CPUID_MAX := 0x4000ff00;
     HVM_CPUID_STEP := 0x100;
     (* "XenVMMXenVMM" *)
     HVM_CPUID_MAGIC := [88; 101; 110; 86; 77; 77; 88; 101; 110; 86; 77; 77; 0];
     HVM_CPUID_VERSION := 1;
     HVM_CPUID_PAGES := 2;
     HVM_MMIO_BAR := 0x14;
     DOMID_SELF := 0x7ff0;
     XENMAPSPACE_shared_info := 0;
     XENMAPSPACE_grant_table := 1;
     HVM_PARAM_STORE_EVTCHN := 2;
     HVM_PARAM_STORE_PFN := 1;
     sizeof_grant_entry := 16 |}.

(** CPUID of a Xen 4.2 guest: signature at the first candidate leaf, one
    hypercall page, installed through MSR 0x40000000. *)
Definition xen_cpuid (leaf : Z) : cpuid_regs :=
  if leaf =? 0x40000000 then
    {| eax := 0x40000002; ebx := 0x566e6558; ecx := 0x65584d4d;
       edx := 0x4d4d566e |}
  else if leaf =? 0x40000001 then
    {| eax := 0x00040002; ebx := 0; ecx := 0; edx := 0 |}
  else if leaf =? 0x40000002 then
    {| eax := 1; ebx := 0x40000000; ecx := 0; edx := 0 |}
  else
    {| eax := 0; ebx := 0; ecx := 0; edx := 0 |}.

(** CPUID of a machine without Xen. *)
Definition bare_cpuid (leaf : Z) : cpuid_regs :=
  {| eax := 0; ebx := 0x756e6547; ecx := 0x6c65746e; edx := 0x49656e69 |}.

(** A mock platform.  The knobs are the CPUID table, the answers of the
    two version queries, the add-to-physmap oracle, the answer to "set
    grant table version", the number of grant frames, the answer of the
    XenStore read, and the stale content of [remove.gpfn]. *)
Definition mock_env (cpu : Z -> cpuid_regs) (version extraversion : Z)
    (add : trace -> xen_add_to_physmap -> Z) (set_version : Z * Z)
    (nr_frames : Z) (store : rc) (stale_gpfn : Z) : env :=
  {| zalloc := fun _ => true;
     pci_bar_start := fun _ => 0xf2000000;
     pci_bar_size := fun _ => 0x1000000;
     cpuid := cpu;
     malloc_dma := fun _ _ _ => 0x100000;
     virt_to_phys := fun p => p;
     ioremap := fun _ phys _ => phys;
     xenver_version := fun _ => version;
     xenver_extraversion := fun _ => extraversion;
     xenmem_add_to_physmap := add;
     xenmem_remove_from_physmap := fun _ _ => 0;
     xengrant_query_size := fun _ _ => (0, nr_frames);
     xengrant_set_version := fun _ _ => set_version;
     xen_hvm_get_param :=
       fun _ index => (0, if index =? 1 then 0xfeffc else 3);
     readl := fun _ _ => 0x5f5e100;
     xenstore_read := fun _ _ => store;
     xenbus_probe := fun _ => RC_OK;
     stack_remove := fun _ => {| remove_domid := 0; remove_gpfn := stale_gpfn |}
  |}.

(** A hypervisor that accepts everything. *)
Definition good_env : env :=
  mock_env xen_cpuid 0x00040002 0 (fun _ _ => 0) (0, 2) 4 RC_OK 0.

Definition world0 : world := {| hvm := hvm_zero; log := [] |}.

(** A machine without Xen: every leaf answers "GenuineIntel". *)
Definition bare_env : env :=
  mock_env bare_cpuid 0 0 (fun _ _ => 0) (0, 2) 4 RC_OK 0.

(** A device whose 16 MiB window has been consumed up to [offset]. *)
Definition window_world (offset : Z) : world :=
  {| hvm := set_mmio_offset offset
              (set_mmio_len 0x1000000 (set_mmio 0xf2000000 hvm_zero));
     log := [] |}.

(** A hypervisor that rejects every add-to-physmap request with status
    -1. *)
Definition rejecting_env : env :=
  mock_env xen_cpuid 0x00040002 0 (fun _ _ => -1) (0, 2) 4 RC_OK 0.

(** The same, reporting a grant table of 2^20 frames. *)
Definition huge_grant_env : env :=
  mock_env xen_cpuid 0x00040002 0 (fun _ _ => -1) (0, 2) 0x100000 RC_OK 0.

(** A hypervisor that accepts the first page of a mapping and rejects the
    second; the stack slot of [remove] holds the stale frame number
    0xdead. *)
Definition second_page_fails_env : env :=
  mock_env xen_cpuid 0x00040002 0
           (fun _ a => if add_idx a =? 1 then -1 else 0)
           (0, 2) 4 RC_OK 0xdead.

(** The hypercall page does not answer the extra-version query. *)
Definition dead_hypercall_env : env :=
  mock_env xen_cpuid 0x00040002 (-1) (fun _ _ => 0) (0, 2) 4 RC_OK 0.

(** XenStore does not answer the read of "name". *)
Definition dead_xenstore_env : env :=
  mock_env xen_cpuid 0x00040002 0 (fun _ _ => 0) (0, 2) 4
           (RC_ERR (EOTHER 5)) 0.

(** The primary version query fails with status -38; the extra-version
    query succeeds. *)
Definition version_fails_env : env :=
  mock_env xen_cpuid (-38) 0 (fun _ _ => 0) (0, 2) 4 RC_OK 0.

(** A device on which the locator has run. *)
Definition located_world : world :=
  {| hvm := set_cpuid_base 0x40000000 hvm_zero; log := [] |}.

(** ** Request lists of the MMIO allocator *)

(** The guest frame number of page [i] of a mapping whose physical
    address is [phys]: [( mmio_phys / PAGE_SIZE ) + i]. *)
Definition page_gpfn (H : headers) (phys i : Z) : Z :=
  sz H (sz H (phys / PAGE_SIZE H) + i).

(** [n] accepted add-to-physmap requests for the pages [i], [i + 1],
    ... of a mapping. *)
Fixpoint add_requests (H : headers) (space phys i : Z) (n : nat) : trace :=
  match n with
  | O => []
  | S n' =>
      EvAddToPhysmap {| add_domid := DOMID_SELF H; add_idx := i;
                        add_space := space;
                        add_gpfn := page_gpfn H phys i |} 0
        :: add_requests H space phys (i + 1) n'
  end.

(** Remove-from-physmap requests for the pages [i], [i + 1], ... of a
    mapping, one per answer of the hypervisor. *)
Fixpoint remove_requests (H : headers) (phys i : Z) (answers : list Z)
  : trace :=
  match answers with
  | [] => []
  | x :: rest =>
      EvRemoveFromPhysmap {| remove_domid := DOMID_SELF H;
                             remove_gpfn := page_gpfn H phys i |} x
        :: remove_requests H phys (i + 1) rest
  end.

(** The frames named by the add-to-physmap requests of a log, and by its
    remove-from-physmap requests, in order. *)
Fixpoint added_frames (t : trace) : list Z :=
  match t with
  | [] => []
  | EvAddToPhysmap a _ :: t' => add_gpfn a :: added_frames t'
  | _ :: t' => added_frames t'
  end.

Fixpoint removed_frames (t : trace) : list Z :=
  match t with
  | [] => []
  | EvRemoveFromPhysmap r _ :: t' => remove_gpfn r :: removed_frames t'
  | _ :: t' => removed_frames t'
  end.

(** What was logged between two worlds. *)
Definition since (w w' : world) : trace :=
  skipn (List.length (log w)) (log w').

(** The pointers handed out by [ioremap] in a log, and the pointers
    handed to [iounmap], in order. *)
Fixpoint mapped_ptrs (t : trace) : list Z :=
  match t with
  | [] => []
  | EvIoremap _ _ p :: t' => p :: mapped_ptrs t'
  | _ :: t' => mapped_ptrs t'
  end.

Fixpoint unmapped_ptrs (t : trace) : list Z :=
  match t with
  | [] => []
  | EvIounmap p :: t' => p :: unmapped_ptrs t'
  | _ :: t' => unmapped_ptrs t'
  end.

(** Events that create no virtual mapping. *)
Definition not_ioremap_event (e : event) : Prop :=
  match e with
  | EvIoremap _ _ _ => False
  | _ => True
  end.

(** ** Frame conditions *)

(** A computation keeps a property of the device structure. *)
Definition preserves {A : Type} (P : hvm_device -> Prop) (m : M A) : Prop :=
  forall w : world, P (hvm w) -> P (hvm (snd (m w))).

(** A computation only appends to the log, and every event it appends
    satisfies [Q]. *)
Definition emits {A : Type} (Q : event -> Prop) (m : M A) : Prop :=
  forall w : world,
    exists t : trace, log (snd (m w)) = log w ++ t /\ Forall Q t.

(** The MMIO window of a device: base [base], length [len], and a bump
    offset within the length. *)
Definition window_is (base len : Z) (d : hvm_device) : Prop :=
  mmio d = base /\ mmio_len d = len /\ mmio_offset d <= mmio_len d.

(** Events that only [hvm_probe] and [hvm_remove] themselves produce. *)
Definition component_event (e : event) : Prop :=
  match e with
  | EvZalloc _ | EvFree | EvPciSetDrvdata | EvXenbusRemove => False
  | _ => True
  end.

(** Events that leave the physical address map alone. *)
Definition not_physmap_event (e : event) : Prop :=
  match e with
  | EvAddToPhysmap _ _ | EvRemoveFromPhysmap _ _ => False
  | _ => True
  end.

(** * Properties *)

(** ** Machine integers *)

Lemma u32_range (x : Z) : 0 <= u32 x < 2 ^ 32.
Proof. unfold u32. apply Z.mod_pos_bound. lia. Qed.

Lemma u32_small (x : Z) : 0 <= x < 2 ^ 32 -> u32 x = x.
Proof. intros Hx. unfold u32. apply Z.mod_small. exact Hx. Qed.

Lemma ulong_range (m : data_model) (x : Z) : 0 <= ulong m x < 2 ^ long_bits m.
Proof. unfold ulong. apply Z.mod_pos_bound. destruct m; simpl; lia. Qed.

Lemma ulong_small (m : data_model) (x : Z) :
  0 <= x < 2 ^ long_bits m -> ulong m x = x.
Proof. intros Hx. unfold ulong. apply Z.mod_small. exact Hx. Qed.

Lemma ulong_u32 (m : data_model) (x : Z) : ulong m (u32 x) = u32 x.
Proof.
  apply ulong_small. pose proof (u32_range x) as Hx.
  destruct m; simpl long_bits; lia.
Qed.

Lemma s32_small (x : Z) : 0 <= x < 2 ^ 31 -> s32 x = x.
Proof.
  intros Hx. unfold s32. rewrite u32_small by lia.
  destruct (x <? 2 ^ 31) eqn:Hlt; [reflexivity | apply Z.ltb_ge in Hlt; lia].
Qed.

Lemma s32_minus_one : s32 (u32 (0 - 1)) = -1.
Proof. reflexivity. Qed.

(** ** Running the monad *)

Ltac run :=
  unfold bind, ret, call, peek, get_hvm, modify_hvm; cbn [fst snd hvm log].

Lemma bind_run {A B : Type} (m : M A) (k : A -> M B) (w : world) :
  bind m k w = k (fst (m w)) (snd (m w)).
Proof. unfold bind. destruct (m w); reflexivity. Qed.

(** ** Grant table version negotiation *)

(** C5.  In [hvm_map_grant], when the size query succeeds and the
    set-version hypercall returns status 0 but reports a version other
    than 2, the operation fails with [ENOTTY] (the driver's
    "unsupported version" code); the two hypercalls are all that happens:
    [hvm_ioremap] is not entered, so no virtual mapping and no
    add-to-physmap request is made, and the device is left untouched. *)
Theorem hvm_map_grant_version_mismatch
    (H : headers) (E : env) (w : world) (nr v : Z) :
  xengrant_query_size E (log w) (DOMID_SELF H) = (0, nr) ->
  xengrant_set_version E (log w ++ [EvQuerySize (DOMID_SELF H) 0 nr]) 2
    = (0, v) ->
  u32 v <> 2 ->
  hvm_map_grant H E w =
    (RC_ERR ENOTTY,
     {| hvm := hvm w;
        log := log w ++ [EvQuerySize (DOMID_SELF H) 0 nr;
                         EvSetVersion 2 0 v] |}).
Proof.
  intros Hsize Hset Hv.
  unfold hvm_map_grant. run.
  rewrite Hsize. cbn [fst snd Z.eqb negb hvm log].
  rewrite Hset. cbn [fst snd Z.eqb negb hvm log].
  apply Z.eqb_neq in Hv. rewrite Hv. cbn [negb].
  rewrite <- app_assoc. reflexivity.
Qed.

(** The mock hypervisor of the specification: accepts "set version 2" and
    reports version 3. *)
Lemma hvm_map_grant_version_mismatch_witness :
  hvm_map_grant ipxe_headers
    (mock_env xen_cpuid 0x00040002 0 (fun _ _ => 0) (0, 3) 4 RC_OK 0) world0
  = (RC_ERR ENOTTY,
     {| hvm := hvm_zero;
        log := [EvQuerySize 0x7ff0 0 4; EvSetVersion 2 0 3] |}).
Proof.
  apply (hvm_map_grant_version_mismatch ipxe_headers
           (mock_env xen_cpuid 0x00040002 0 (fun _ _ => 0) (0, 3) 4 RC_OK 0)
           world0 4 3).
  - reflexivity.
  - reflexivity.
  - vm_compute. discriminate.
Defined.

(** ** The MMIO allocator: what a call can change *)

(** The two loops of [hvm_ioremap] and the loop of [hvm_iounmap] talk to
    the hypervisor only; they never write to the device structure. *)
Lemma hvm_ioremap_add_hvm (H : headers) (E : env) (space pages phys : Z) :
  forall (fuel : nat) (i : Z) (w : world),
    hvm (snd (hvm_ioremap_add H E fuel space pages phys i w)) = hvm w.
Proof.
  induction fuel as [|fuel IH]; intros i w; cbn [hvm_ioremap_add].
  - reflexivity.
  - destruct (i <? pages); [|reflexivity].
    run.
    match goal with |- context [negb ?c] => destruct c end; cbn [negb].
    + rewrite IH. reflexivity.
    + reflexivity.
Qed.

Lemma hvm_ioremap_undo_hvm (H : headers) (E : env) (phys : Z) :
  forall (fuel : nat) (i : Z) (add : xen_add_to_physmap)
         (remove : xen_remove_from_physmap) (w : world),
    hvm (snd (hvm_ioremap_undo H E fuel phys i add remove w)) = hvm w.
Proof.
  induction fuel as [|fuel IH]; intros i add remove w; cbn [hvm_ioremap_undo].
  - reflexivity.
  - destruct (0 <=? s32 i); [|reflexivity].
    run. rewrite IH. reflexivity.
Qed.

Lemma hvm_iounmap_remove_hvm (H : headers) (E : env) (pages phys : Z) :
  forall (fuel : nat) (i : Z) (w : world),
    hvm (snd (hvm_iounmap_remove H E fuel pages phys i w)) = hvm w.
Proof.
  induction fuel as [|fuel IH]; intros i w; cbn [hvm_iounmap_remove].
  - reflexivity.
  - destruct (i <? pages); [|reflexivity].
    run. rewrite IH. reflexivity.
Qed.

Lemma hvm_iounmap_hvm (H : headers) (E : env) (p pages : Z) (w : world) :
  hvm (snd (hvm_iounmap H E p pages w)) = hvm w.
Proof.
  unfold hvm_iounmap. run. rewrite hvm_iounmap_remove_hvm. reflexivity.
Qed.

(** A call either returns NULL and leaves the device structure alone, or
    returns a mapping, in which case the space check had passed and the
    offset has moved to exactly the value that was checked. *)
Lemma hvm_ioremap_cases (H : headers) (E : env) (space pages : Z) (w : world) :
  (fst (hvm_ioremap H E space pages w) = NULL /\
   hvm (snd (hvm_ioremap H E space pages w)) = hvm w)
  \/
  (fst (hvm_ioremap H E space pages w) <> NULL /\
   sz H (mmio_offset (hvm w) + ioremap_len H pages) <= mmio_len (hvm w) /\
   hvm (snd (hvm_ioremap H E space pages w)) =
     set_mmio_offset (sz H (mmio_offset (hvm w) + ioremap_len H pages))
                     (hvm w)).
Proof.
  unfold hvm_ioremap, ioremap_len. run.
  destruct (sz H (mmio_offset (hvm w) + sz H (u32 (u32 pages * PAGE_SIZE H)))
            >? mmio_len (hvm w)) eqn:Hchk.
  - left. split; reflexivity.
  - set (p := ioremap E (log w) _ _).
    destruct (p =? NULL) eqn:Hp.
    + left. split; reflexivity.
    + match goal with
      | |- context [hvm_ioremap_add H E ?f ?s ?n ?ph ?i ?w0] =>
          pose proof (hvm_ioremap_add_hvm H E s n ph f i w0) as Hadd;
          destruct (hvm_ioremap_add H E f s n ph i w0) as [[i'|] w1]
      end; cbn [snd hvm] in Hadd.
      * left.
        match goal with
        | |- context [hvm_ioremap_undo H E ?f ?ph ?i ?a ?r ?w0] =>
            pose proof (hvm_ioremap_undo_hvm H E ph f i a r w0) as Hundo;
            destruct (hvm_ioremap_undo H E f ph i a r w0) as [u w2]
        end; cbn [snd hvm fst] in *.
        split; [reflexivity | congruence].
      * right. cbn [fst snd hvm].
        apply Z.eqb_neq in Hp. rewrite Z.gtb_ltb in Hchk. apply Z.ltb_ge in Hchk.
        repeat split; [exact Hp | exact Hchk | rewrite Hadd; reflexivity].
Qed.

(** ** The shared-info mapper *)

Lemma hvm_ioremap_with_readl (H : headers) (E : env) (f : trace -> Z -> Z)
    (space pages : Z) (w : world) :
  hvm_ioremap H (with_readl f E) space pages w = hvm_ioremap H E space pages w.
Proof. reflexivity. Qed.

(** C10.  [hvm_map_shared_info] returns 0 exactly when its one-page
    [hvm_ioremap] returned a non-NULL mapping, and [-ENOMEM] when it
    returned NULL; the value read from the wall-clock field plays no part:
    whatever [readl] delivers, the status code and the resulting device
    structure are the same. *)
Theorem hvm_map_shared_info_result (H : headers) (E : env) (w : world) :
  fst (hvm_map_shared_info H E w) =
    (if fst (hvm_ioremap H E (XENMAPSPACE_shared_info H) 1 w) =? NULL
     then RC_ERR ENOMEM else RC_OK)
  /\
  (forall wallclock : trace -> Z -> Z,
     fst (hvm_map_shared_info H (with_readl wallclock E) w) =
       fst (hvm_map_shared_info H E w) /\
     hvm (snd (hvm_map_shared_info H (with_readl wallclock E) w)) =
       hvm (snd (hvm_map_shared_info H E w))).
Proof.
  split.
  - unfold hvm_map_shared_info. rewrite bind_run.
    destruct (hvm_ioremap H E (XENMAPSPACE_shared_info H) 1 w) as [p w1].
    run. destruct (p =? NULL); reflexivity.
  - intros wallclock. unfold hvm_map_shared_info. rewrite !bind_run.
    rewrite hvm_ioremap_with_readl.
    destruct (hvm_ioremap H E (XENMAPSPACE_shared_info H) 1 w) as [p w1].
    run. destruct (p =? NULL); split; reflexivity.
Qed.

(** ** The space check of the MMIO allocator *)

(** When the check [( hvm->mmio_offset + len ) > hvm->mmio_len] fires,
    the call is a no-op that returns NULL. *)
Lemma hvm_ioremap_no_space (H : headers) (E : env) (space pages : Z)
    (w : world) :
  sz H (mmio_offset (hvm w) + ioremap_len H pages) > mmio_len (hvm w) ->
  hvm_ioremap H E space pages w = (NULL, w).
Proof.
  intros Hgt. unfold hvm_ioremap. run. fold (ioremap_len H pages).
  apply Z.gt_lt, Z.ltb_lt in Hgt. rewrite Z.gtb_ltb, Hgt. reflexivity.
Qed.

(** As long as neither the product [pages * PAGE_SIZE] nor the sum
    [mmio_offset + len] leaves its machine type, the check is the check
    for [pages * PAGE_SIZE > mmio_len - mmio_offset]. *)
Lemma hvm_ioremap_no_space_exact (H : headers) (E : env) (space pages : Z)
    (w : world) :
  0 <= pages -> 0 < PAGE_SIZE H -> 0 <= mmio_offset (hvm w) ->
  pages * PAGE_SIZE H < 2 ^ 32 ->
  mmio_offset (hvm w) + pages * PAGE_SIZE H < 2 ^ long_bits (abi H) ->
  pages * PAGE_SIZE H > mmio_len (hvm w) - mmio_offset (hvm w) ->
  hvm_ioremap H E space pages w = (NULL, w).
Proof.
  intros Hp Hps Hoff Hmul Hsum Hgt.
  apply hvm_ioremap_no_space. unfold ioremap_len, sz.
  assert (Hpg : pages < 2 ^ 32) by nia.
  rewrite (u32_small pages) by lia.
  rewrite (u32_small (pages * PAGE_SIZE H)) by nia.
  rewrite (ulong_small _ (pages * PAGE_SIZE H)).
  - rewrite ulong_small by nia. lia.
  - split; [nia|]. destruct (abi H); simpl long_bits in *; lia.
Qed.

(** C7.  The space check of [hvm_ioremap] is made on the 32-bit product
    [pages * PAGE_SIZE].  A request for 2^20 pages of 4096 bytes asks for
    2^32 bytes, far more than the 0xfff000 bytes left in the window, but
    the product wraps to 0: the check passes, the (empty) range is handed
    to [ioremap], an add-to-physmap request goes to the hypervisor, and
    only its rejection makes the call return NULL.  [hvm_map_grant]
    reaches this call when the size query reports 2^20 frames. *)
Theorem hvm_ioremap_space_check_wraps :
  0x100000 * PAGE_SIZE ipxe_headers >
    mmio_len (hvm (window_world 0x1000)) -
    mmio_offset (hvm (window_world 0x1000))
  /\
  hvm_ioremap ipxe_headers huge_grant_env 1 0x100000 (window_world 0x1000) =
    (NULL,
     {| hvm := hvm (window_world 0x1000);
        log := [ EvIoremap 0xf2001000 0 0xf2001000;
                 EvAddToPhysmap {| add_domid := 0x7ff0; add_idx := 0;
                                   add_space := 1; add_gpfn := 0xf2001 |}
                                (-1);
                 EvIounmap 0xf2001000 ] |})
  /\
  hvm_map_grant ipxe_headers huge_grant_env (window_world 0x1000) =
    (RC_ERR ENODEV,
     {| hvm := hvm (window_world 0x1000);
        log := [ EvQuerySize 0x7ff0 0 0x100000;
                 EvSetVersion 2 0 2;
                 EvIoremap 0xf2001000 0 0xf2001000;
                 EvAddToPhysmap {| add_domid := 0x7ff0; add_idx := 0;
                                   add_space := 1; add_gpfn := 0xf2001 |}
                                (-1);
                 EvIounmap 0xf2001000 ] |}).
Proof.
  split; [reflexivity|]. split; vm_compute; reflexivity.
Qed.

(** ** The bump offset *)

(** With a hypervisor that accepts every add-to-physmap request the
    adding loop runs to its end. *)
Lemma hvm_ioremap_add_all_ok (H : headers) (E : env) (space pages phys : Z) :
  (forall h a, xenmem_add_to_physmap E h a = 0) ->
  forall (fuel : nat) (i : Z) (w : world),
    fst (hvm_ioremap_add H E fuel space pages phys i w) = None.
Proof.
  intros Hok. induction fuel as [|fuel IH]; intros i w; cbn [hvm_ioremap_add].
  - reflexivity.
  - destruct (i <? pages); [|reflexivity].
    run. rewrite Hok. cbn [Z.eqb negb]. apply IH.
Qed.

Lemma hvm_ioremap_accepting (H : headers) (E : env) (space pages : Z)
    (w : world) :
  (forall h a, xenmem_add_to_physmap E h a = 0) ->
  sz H (mmio_offset (hvm w) + ioremap_len H pages) <= mmio_len (hvm w) ->
  fst (hvm_ioremap H E space pages w) =
    ioremap E (log w) (sz H (mmio (hvm w) + mmio_offset (hvm w)))
            (ioremap_len H pages).
Proof.
  intros Hok Hle. unfold hvm_ioremap. run. fold (ioremap_len H pages).
  rewrite Z.gtb_ltb. apply Z.ltb_ge in Hle. rewrite Hle.
  set (p := ioremap E (log w) _ _).
  destruct (p =? NULL) eqn:Hp.
  - apply Z.eqb_eq in Hp. cbn [fst]. congruence.
  - match goal with
    | |- context [hvm_ioremap_add H E ?f ?s ?n ?ph ?i ?w0] =>
        pose proof (hvm_ioremap_add_all_ok H E s n ph Hok f i w0) as Hadd;
        destruct (hvm_ioremap_add H E f s n ph i w0) as [r w1]
    end.
    cbn [fst] in Hadd. subst r. reflexivity.
Qed.

(** What holds of the offset on every call: a
    failing call leaves it alone, a successful call sets it to the checked
    sum, and [mmio_offset <= mmio_len] survives both [hvm_ioremap] and
    [hvm_iounmap]. *)
Lemma hvm_ioremap_offset_le_len (H : headers) (E : env) (space pages : Z)
    (w : world) :
  mmio_offset (hvm w) <= mmio_len (hvm w) ->
  mmio_offset (hvm (snd (hvm_ioremap H E space pages w))) <=
    mmio_len (hvm (snd (hvm_ioremap H E space pages w))).
Proof.
  intros Hinv.
  destruct (hvm_ioremap_cases H E space pages w) as [[_ Hd]|[_ [Hle Hd]]];
    rewrite Hd; [exact Hinv | exact Hle].
Qed.

Lemma hvm_ioremap_offset_exact (H : headers) (E : env) (space pages : Z)
    (w : world) :
  0 <= pages -> 0 < PAGE_SIZE H -> 0 <= mmio_offset (hvm w) ->
  pages * PAGE_SIZE H < 2 ^ 32 ->
  mmio_offset (hvm w) + pages * PAGE_SIZE H < 2 ^ long_bits (abi H) ->
  mmio_offset (hvm (snd (hvm_ioremap H E space pages w))) =
    if fst (hvm_ioremap H E space pages w) =? NULL
    then mmio_offset (hvm w)
    else mmio_offset (hvm w) + pages * PAGE_SIZE H.
Proof.
  intros Hp Hps Hoff Hmul Hsum.
  destruct (hvm_ioremap_cases H E space pages w) as [[Hr Hd]|[Hr [_ Hd]]];
    rewrite Hd.
  - rewrite Hr. reflexivity.
  - apply Z.eqb_neq in Hr. rewrite Hr. cbn [set_mmio_offset mmio_offset].
    unfold ioremap_len, sz.
    assert (Hpg : pages < 2 ^ 32) by nia.
    rewrite (u32_small pages) by lia.
    rewrite (u32_small (pages * PAGE_SIZE H)) by nia.
    rewrite (ulong_small _ (pages * PAGE_SIZE H)).
    + apply ulong_small. nia.
    + split; [nia|]. destruct (abi H); simpl long_bits in *; lia.
Qed.

(** C9.  The offset is advanced by the wrapped 32-bit product, and the
    sum is again taken in [size_t].  With every request accepted by the
    hypervisor, a call for 2^20 pages (2^32 bytes) succeeds and leaves the
    offset where it was, at 0x1000; a call for 2^20 - 1 pages succeeds on
    the i386 build and moves the offset from 0x1000 back to 0. *)
Theorem hvm_ioremap_offset_wraps :
  (fst (hvm_ioremap ipxe_headers good_env 1 0x100000 (window_world 0x1000))
     <> NULL /\
   mmio_offset
     (hvm (snd (hvm_ioremap ipxe_headers good_env 1 0x100000
                            (window_world 0x1000)))) = 0x1000)
  /\
  (fst (hvm_ioremap ipxe_headers good_env 1 0xfffff (window_world 0x1000))
     <> NULL /\
   mmio_offset
     (hvm (snd (hvm_ioremap ipxe_headers good_env 1 0xfffff
                            (window_world 0x1000)))) = 0).
Proof.
  assert (Hok : forall h a, xenmem_add_to_physmap good_env h a = 0)
    by reflexivity.
  split.
  - assert (Hle : sz ipxe_headers
                    (mmio_offset (hvm (window_world 0x1000)) +
                     ioremap_len ipxe_headers 0x100000)
                  <= mmio_len (hvm (window_world 0x1000)))
      by (vm_compute; discriminate).
    pose proof (hvm_ioremap_accepting ipxe_headers good_env 1 0x100000
                  (window_world 0x1000) Hok Hle) as Hfst.
    destruct (hvm_ioremap_cases ipxe_headers good_env 1 0x100000
                (window_world 0x1000)) as [[Hr _]|[Hr [_ Hd]]].
    + rewrite Hfst in Hr. vm_compute in Hr. discriminate.
    + split; [exact Hr | rewrite Hd; reflexivity].
  - assert (Hle : sz ipxe_headers
                    (mmio_offset (hvm (window_world 0x1000)) +
                     ioremap_len ipxe_headers 0xfffff)
                  <= mmio_len (hvm (window_world 0x1000)))
      by (vm_compute; discriminate).
    pose proof (hvm_ioremap_accepting ipxe_headers good_env 1 0xfffff
                  (window_world 0x1000) Hok Hle) as Hfst.
    destruct (hvm_ioremap_cases ipxe_headers good_env 1 0xfffff
                (window_world 0x1000)) as [[Hr _]|[Hr [_ Hd]]].
    + rewrite Hfst in Hr. vm_compute in Hr. discriminate.
    + split; [exact Hr | rewrite Hd; reflexivity].
Qed.

(** ** Unwinding a partly added mapping *)

(** Whatever the index at which the adding loop stopped, every request
    of the unwinding loop carries the frame number that [remove] held on
    entry: started at [i], the loop issues [i + 1] removals, none of which
    names a frame computed from [mmio_phys]. *)
Lemma hvm_ioremap_undo_requests (H : headers) (E : env) (phys : Z) :
  forall (fuel : nat) (i : Z) (add : xen_add_to_physmap)
         (remove : xen_remove_from_physmap) (w : world),
    0 <= i < 2 ^ 31 ->
    (Z.to_nat i < fuel)%nat ->
    exists answers : list Z,
      List.length answers = Z.to_nat (i + 1) /\
      log (snd (hvm_ioremap_undo H E fuel phys i add remove w)) =
        log w ++
        map (EvRemoveFromPhysmap
               {| remove_domid := DOMID_SELF H;
                  remove_gpfn := remove_gpfn remove |})
            answers.
Proof.
  induction fuel as [|fuel IH]; intros i add remove w Hi Hfuel; [lia|].
  cbn [hvm_ioremap_undo]. rewrite s32_small by lia.
  destruct (0 <=? i) eqn:Hge; [|apply Z.leb_gt in Hge; lia].
  run.
  set (r := {| remove_domid := DOMID_SELF H;
               remove_gpfn := remove_gpfn remove |}).
  set (x := xenmem_remove_from_physmap E (log w) r).
  destruct (Z.eq_dec i 0) as [->|Hnz].
  - exists [x]. split; [reflexivity|].
    destruct fuel as [|fuel]; cbn [hvm_ioremap_undo]; [reflexivity|].
    rewrite s32_minus_one. reflexivity.
  - rewrite (u32_small (i - 1)) by lia.
    match goal with
    | |- context [hvm_ioremap_undo H E fuel phys (i - 1) ?a r ?w0] =>
        destruct (IH (i - 1) a r w0) as [answers [Hlen Hlog]];
          [lia | lia |]
    end.
    exists (x :: answers). split.
    + cbn [List.length]. rewrite Hlen.
      replace (i + 1) with (Z.succ (i - 1 + 1)) by lia.
      rewrite Z2Nat.inj_succ by lia. reflexivity.
    + rewrite Hlog. cbn [log map]. rewrite <- app_assoc. reflexivity.
Qed.

(** C1.  [hvm_ioremap] asked for two pages, the second add-to-physmap
    request failing.  One removal is issued for the one page that had been
    added, the virtual mapping is released and NULL is returned; but the
    unwinding loop writes the frame number into [add.gpfn] and passes
    [remove], whose [gpfn] was never set: the removal names the stale
    frame 0xdead instead of frame 0xf2000 that had been added, and frame
    0xf2000 is still in the physical address map afterwards. *)
Theorem hvm_ioremap_unwind_names_stale_frame :
  hvm_ioremap ipxe_headers second_page_fails_env 1 2 (window_world 0) =
    (NULL,
     {| hvm := hvm (window_world 0);
        log := [ EvIoremap 0xf2000000 0x2000 0xf2000000;
                 EvAddToPhysmap {| add_domid := 0x7ff0; add_idx := 0;
                                   add_space := 1; add_gpfn := 0xf2000 |} 0;
                 EvAddToPhysmap {| add_domid := 0x7ff0; add_idx := 1;
                                   add_space := 1; add_gpfn := 0xf2001 |}
                                (-1);
                 EvRemoveFromPhysmap {| remove_domid := 0x7ff0;
                                        remove_gpfn := 0xdead |} 0;
                 EvIounmap 0xf2000000 ] |})
  /\
  physmap_frames
    (log (snd (hvm_ioremap ipxe_headers second_page_fails_env 1 2
                           (window_world 0)))) []
  = [0xf2000].
Proof.
  split; vm_compute; reflexivity.
Qed.

(** ** What a failed probe leaves behind *)

(** C2.  Two probes that fail.  When the extra-version query fails,
    [hvm_map_hypercall] returns without [free_dma] and [hvm_probe] jumps
    past [hvm_unmap_hypercall]: the hypercall page at 0x100000 is still
    allocated when the probe returns its error.  When the XenStore read
    fails, [hvm_map_xenstore] returns without [iounmap] and [hvm_probe]
    jumps past [hvm_unmap_xenstore]: the XenStore page at 0xfeffc000 is
    still mapped, while everything acquired by earlier stages has been
    released. *)
Theorem hvm_probe_failure_leaks :
  (fst (hvm_probe ipxe_headers dead_hypercall_env world0)
     = RC_ERR (EXEN (-1)) /\
   log (snd (hvm_probe ipxe_headers dead_hypercall_env world0)) =
     [ EvZalloc true; EvPciBarStart 0x14 0xf2000000;
       EvPciBarSize 0x14 0x1000000; EvAdjustPciDevice;
       EvCpuid 0x40000000 (xen_cpuid 0x40000000);
       EvCpuid 0x40000001 (xen_cpuid 0x40000001);
       EvCpuid 0x40000002 (xen_cpuid 0x40000002);
       EvMallocDma 4096 4096 0x100000; EvWrmsr 0x40000000 0x100000;
       EvXenverVersion 0x00040002; EvXenverExtraversion (-1);
       EvFree ] /\
   dma_held (log (snd (hvm_probe ipxe_headers dead_hypercall_env world0))) []
     = [0x100000])
  /\
  (fst (hvm_probe ipxe_headers dead_xenstore_env world0)
     = RC_ERR (EOTHER 5) /\
   io_mapped (log (snd (hvm_probe ipxe_headers dead_xenstore_env world0))) []
     = [0xfeffc000] /\
   dma_held (log (snd (hvm_probe ipxe_headers dead_xenstore_env world0))) []
     = [] /\
   physmap_frames
     (log (snd (hvm_probe ipxe_headers dead_xenstore_env world0))) []
     = []).
Proof.
  split; repeat split; vm_compute; reflexivity.
Qed.

(** ** Verifying the hypercall page *)

(** C3, counterexample.  The primary version query returns the negative
    status -38 and [hvm_map_hypercall] nevertheless returns 0. *)
Lemma hvm_map_hypercall_version_unchecked :
  hvm_map_hypercall ipxe_headers version_fails_env located_world =
    (RC_OK,
     {| hvm := set_xen_hypercall 0x100000
                 (set_hypercall_len 4096 (hvm located_world));
        log := [ EvCpuid 0x40000002 (xen_cpuid 0x40000002);
                 EvMallocDma 4096 4096 0x100000;
                 EvWrmsr 0x40000000 0x100000;
                 EvXenverVersion (-38);
                 EvXenverExtraversion 0 ] |}).
Proof. vm_compute. reflexivity. Qed.

(** C3, as amended.  [hvm_map_hypercall] reads the page count and the MSR
    from CPUID and allocates the pages; if the allocation fails it returns
    [-ENOMEM] and nothing else happens.  Otherwise it writes the physical
    address to the MSR and then issues the primary version query and the
    extra-version query, in this order.  The status code is decided by the
    extra-version query alone: [-EXEN ( xenrc )] for a nonzero status
    [xenrc], 0 otherwise.  What the primary version query returned is not
    looked at. *)
Theorem hvm_map_hypercall_outcome (H : headers) (E : env) (w : world) :
  exists (leaf len msr p : Z),
    let regs := cpuid E leaf in
    leaf = u32 (cpuid_base (hvm w) + HVM_CPUID_PAGES H) /\
    len = sz H (u32 (u32 (eax regs) * PAGE_SIZE H)) /\
    msr = u32 (ebx regs) /\
    ((p = NULL /\
      fst (hvm_map_hypercall H E w) = RC_ERR ENOMEM /\
      log (snd (hvm_map_hypercall H E w)) =
        log w ++ [EvCpuid leaf regs; EvMallocDma len (PAGE_SIZE H) p])
     \/
     (p <> NULL /\
      exists version xenrc : Z,
        log (snd (hvm_map_hypercall H E w)) =
          log w ++ [ EvCpuid leaf regs;
                     EvMallocDma len (PAGE_SIZE H) p;
                     EvWrmsr msr (virt_to_phys E p);
                     EvXenverVersion version;
                     EvXenverExtraversion xenrc ] /\
        fst (hvm_map_hypercall H E w) =
          if xenrc =? 0 then RC_OK else RC_ERR (EXEN xenrc))).
Proof.
  unfold hvm_map_hypercall. run.
  set (leaf := u32 (cpuid_base (hvm w) + HVM_CPUID_PAGES H)).
  set (len := sz H (u32 (u32 (eax (cpuid E leaf)) * PAGE_SIZE H))).
  set (p := malloc_dma E (log w ++ [EvCpuid leaf (cpuid E leaf)]) len
                       (PAGE_SIZE H)).
  exists leaf, len, (u32 (ebx (cpuid E leaf))), p. cbv zeta.
  repeat (split; [reflexivity|]).
  destruct (p =? NULL) eqn:Hp.
  - left. apply Z.eqb_eq in Hp. cbn [fst snd log].
    repeat split; [exact Hp | rewrite <- app_assoc; reflexivity].
  - right. apply Z.eqb_neq in Hp. split; [exact Hp|].
    cbn [fst snd log hvm].
    match goal with
    | |- context [xenver_extraversion E ?h] =>
        set (x := xenver_extraversion E h)
    end.
    match goal with
    | |- context [EvXenverVersion ?v] => exists v
    end.
    exists x.
    destruct (x =? 0); cbn [negb fst snd log];
      rewrite <- !app_assoc; split; reflexivity.
Qed.

(** ** Which status code reaches the caller *)

(** C4, counterexample.  The hypervisor rejects the add-to-physmap request
    of the shared-info page with status -1: [hvm_map_shared_info] reports
    [-ENOMEM], not [-EXEN ( -1 )].  With the window used up,
    [hvm_map_grant] reports [-ENODEV]. *)
Lemma hvm_ioremap_failure_kind_lost :
  hvm_map_shared_info ipxe_headers rejecting_env (window_world 0) =
    (RC_ERR ENOMEM,
     {| hvm := hvm (window_world 0);
        log := [ EvIoremap 0xf2000000 0x1000 0xf2000000;
                 EvAddToPhysmap {| add_domid := 0x7ff0; add_idx := 0;
                                   add_space := 0; add_gpfn := 0xf2000 |}
                                (-1);
                 EvIounmap 0xf2000000 ] |})
  /\
  hvm_map_grant ipxe_headers good_env (window_world 0x1000000) =
    (RC_ERR ENODEV,
     {| hvm := hvm (window_world 0x1000000);
        log := [ EvQuerySize 0x7ff0 0 4; EvSetVersion 2 0 2 ] |}).
Proof. split; vm_compute; reflexivity. Qed.

(** C4, as amended.  A component that issues a hypercall itself returns
    a nonzero status [xenrc] of that hypercall as [-EXEN ( xenrc )]: the
    size query and the set-version call of [hvm_map_grant], the two
    get-parameter calls of [hvm_map_xenstore], the extra-version query of
    [hvm_map_hypercall].  A failure of
    [hvm_ioremap], whatever its cause, reaches the caller as NULL only:
    [hvm_map_shared_info] turns it into [-ENOMEM], and [hvm_map_grant]
    into [-ENODEV]. *)
Theorem hvm_component_status (H : headers) (E : env) (w : world) :
  (* grant table: size query *)
  (forall xenrc nr,
     xengrant_query_size E (log w) (DOMID_SELF H) = (xenrc, nr) ->
     xenrc <> 0 ->
     fst (hvm_map_grant H E w) = RC_ERR (EXEN xenrc))
  /\
  (* grant table: set version *)
  (forall nr xenrc v,
     xengrant_query_size E (log w) (DOMID_SELF H) = (0, nr) ->
     xengrant_set_version E (log w ++ [EvQuerySize (DOMID_SELF H) 0 nr]) 2
       = (xenrc, v) ->
     xenrc <> 0 ->
     fst (hvm_map_grant H E w) = RC_ERR (EXEN xenrc))
  /\
  (* grant table: mapping *)
  (forall nr v,
     xengrant_query_size E (log w) (DOMID_SELF H) = (0, nr) ->
     xengrant_set_version E (log w ++ [EvQuerySize (DOMID_SELF H) 0 nr]) 2
       = (0, v) ->
     u32 v = 2 ->
     fst (hvm_ioremap H E (XENMAPSPACE_grant_table H) (u32 nr)
            {| hvm := hvm w;
               log := log w ++ [EvQuerySize (DOMID_SELF H) 0 nr;
                                EvSetVersion 2 0 v] |}) = NULL ->
     fst (hvm_map_grant H E w) = RC_ERR ENODEV)
  /\
  (* XenStore: event channel *)
  (forall xenrc port,
     xen_hvm_get_param E (log w) (HVM_PARAM_STORE_EVTCHN H) = (xenrc, port) ->
     xenrc <> 0 ->
     fst (hvm_map_xenstore H E w) = RC_ERR (EXEN xenrc))
  /\
  (* XenStore: page frame number *)
  (forall port xenrc pfn,
     xen_hvm_get_param E (log w) (HVM_PARAM_STORE_EVTCHN H) = (0, port) ->
     xen_hvm_get_param E
       (log w ++ [EvGetParam (HVM_PARAM_STORE_EVTCHN H) 0 port])
       (HVM_PARAM_STORE_PFN H) = (xenrc, pfn) ->
     xenrc <> 0 ->
     fst (hvm_map_xenstore H E w) = RC_ERR (EXEN xenrc))
  /\
  (* shared info: mapping *)
  (fst (hvm_ioremap H E (XENMAPSPACE_shared_info H) 1 w) = NULL ->
   fst (hvm_map_shared_info H E w) = RC_ERR ENOMEM)
  /\
  (* hypercall page: extra-version query *)
  (let leaf := u32 (cpuid_base (hvm w) + HVM_CPUID_PAGES H) in
   let regs := cpuid E leaf in
   let len := sz H (u32 (u32 (eax regs) * PAGE_SIZE H)) in
   let h1 := log w ++ [EvCpuid leaf regs] in
   let p := malloc_dma E h1 len (PAGE_SIZE H) in
   let h2 := h1 ++ [EvMallocDma len (PAGE_SIZE H) p] in
   let h3 := h2 ++ [EvWrmsr (u32 (ebx regs)) (virt_to_phys E p)] in
   let h4 := h3 ++ [EvXenverVersion (xenver_version E h3)] in
   p <> NULL ->
   xenver_extraversion E h4 <> 0 ->
   fst (hvm_map_hypercall H E w) =
     RC_ERR (EXEN (xenver_extraversion E h4))).
Proof.
  repeat apply conj.
  - intros xenrc nr Hq Hx. unfold hvm_map_grant. run. rewrite Hq.
    cbn [fst snd]. apply Z.eqb_neq in Hx. rewrite Hx. reflexivity.
  - intros nr xenrc v Hq Hs Hx. unfold hvm_map_grant. run. rewrite Hq.
    cbn [fst snd Z.eqb negb hvm log]. rewrite Hs. cbn [fst snd].
    apply Z.eqb_neq in Hx. rewrite Hx. reflexivity.
  - intros nr v Hq Hs Hv Hnull. unfold hvm_map_grant. run. rewrite Hq.
    cbn [fst snd Z.eqb negb hvm log]. rewrite Hs.
    cbn [fst snd Z.eqb negb hvm log]. rewrite Hv. cbn [Z.eqb Pos.eqb negb].
    rewrite <- app_assoc. cbn [app].
    destruct (hvm_ioremap H E (XENMAPSPACE_grant_table H) (u32 nr) _)
      as [p w1].
    cbn [fst] in Hnull. subst p. reflexivity.
  - intros xenrc port Hq Hx. unfold hvm_map_xenstore. run. rewrite Hq.
    cbn [fst snd]. apply Z.eqb_neq in Hx. rewrite Hx. reflexivity.
  - intros port xenrc pfn Hq Hp Hx. unfold hvm_map_xenstore. run. rewrite Hq.
    cbn [fst snd Z.eqb negb hvm log]. rewrite Hp. cbn [fst snd].
    apply Z.eqb_neq in Hx. rewrite Hx. reflexivity.
  - intros Hnull. unfold hvm_map_shared_info. rewrite bind_run.
    destruct (hvm_ioremap H E (XENMAPSPACE_shared_info H) 1 w) as [p w1].
    cbn [fst] in Hnull. subst p. reflexivity.
  - cbv zeta. intros Hp Hx. unfold hvm_map_hypercall. run.
    apply Z.eqb_neq in Hp. rewrite Hp. cbn [fst snd hvm log].
    apply Z.eqb_neq in Hx. rewrite Hx. reflexivity.
Qed.

(** The amended statement at work: a rejected shared-info page and a
    rejected grant-table size query. *)
Lemma hvm_component_status_witness :
  fst (hvm_map_shared_info ipxe_headers rejecting_env (window_world 0))
    = RC_ERR ENOMEM
  /\
  fst (hvm_map_grant ipxe_headers rejecting_env (window_world 0))
    = RC_ERR ENODEV.
Proof.
  split.
  - apply (proj1 (proj2 (proj2 (proj2 (proj2 (proj2
             (hvm_component_status ipxe_headers rejecting_env
                                   (window_world 0)))))))).
    vm_compute. reflexivity.
  - apply (proj1 (proj2 (proj2
             (hvm_component_status ipxe_headers rejecting_env
                                   (window_world 0))))
             4 2).
    + reflexivity.
    + reflexivity.
    + reflexivity.
    + vm_compute. reflexivity.
Defined.

(** ** Order of teardown *)

Lemma attach_with_undo_fails (done : list stage) :
  forall (s : stage) (rest : list stage) (undo : list (M unit))
         (e : errno) (w w1 w2 : world),
    acquire_all done w = Some w1 ->
    acquire s w1 = (RC_ERR e, w2) ->
    attach_with_undo (done ++ s :: rest) undo w =
      (RC_ERR e, snd (run_all (rev (map release done) ++ undo) w2)).
Proof.
  induction done as [|d done IH]; intros s rest undo e w w1 w2 Hall Hacq.
  - cbn in Hall. injection Hall as ->.
    cbn [app attach_with_undo map rev]. unfold bind. rewrite Hacq.
    destruct (run_all undo w2); reflexivity.
  - cbn [acquire_all] in Hall.
    cbn [app attach_with_undo]. unfold bind at 1.
    destruct (acquire d w) as [[|e'] w']; [|discriminate].
    rewrite (IH s rest (release d :: undo) e w' w1 w2 Hall Hacq).
    cbn [map rev]. rewrite <- app_assoc. reflexivity.
Qed.

Lemma attach_with_undo_succeeds (l : list stage) :
  forall (undo : list (M unit)) (w w1 : world),
    acquire_all l w = Some w1 ->
    attach_with_undo l undo w = (RC_OK, w1).
Proof.
  induction l as [|s l IH]; intros undo w w1 Hall.
  - cbn in Hall. injection Hall as ->. reflexivity.
  - cbn [acquire_all] in Hall. cbn [attach_with_undo]. unfold bind at 1.
    destruct (acquire s w) as [[|e'] w']; [|discriminate].
    apply IH. exact Hall.
Qed.

(** [hvm_probe] with its chain of error labels is the undo-stack
    orchestrator over [hvm_stages]. *)
Lemma hvm_probe_undo_stack (H : headers) (E : env) (w : world) :
  hvm_probe H E w = probe_with_undo H E w.
Proof.
  unfold hvm_probe, probe_with_undo, hvm_probe_init, hvm_stages.
  cbn [attach_with_undo run_all acquire release].
  unfold free_hvm, xenbus_remove. run.
  destruct (zalloc E (log w)); cbn [negb]; [|reflexivity].
  repeat (cbn [fst snd hvm log];
          match goal with
          | |- context [hvm_cpuid_base H E ?w0] =>
              destruct (hvm_cpuid_base H E w0) as [[|?] ?]
          | |- context [hvm_map_hypercall H E ?w0] =>
              destruct (hvm_map_hypercall H E w0) as [[|?] ?]
          | |- context [hvm_map_shared_info H E ?w0] =>
              destruct (hvm_map_shared_info H E w0) as [[|?] ?]
          | |- context [hvm_map_grant H E ?w0] =>
              destruct (hvm_map_grant H E w0) as [[|?] ?]
          | |- context [hvm_map_xenstore H E ?w0] =>
              destruct (hvm_map_xenstore H E w0) as [[|?] ?]
          | |- context [xenbus_probe E ?h] =>
              destruct (xenbus_probe E h) as [|?]
          | |- context [hvm_unmap_xenstore ?w0] =>
              destruct (hvm_unmap_xenstore w0) as [[] ?]
          | |- context [hvm_unmap_grant H E ?w0] =>
              destruct (hvm_unmap_grant H E w0) as [[] ?]
          | |- context [hvm_unmap_shared_info H E ?w0] =>
              destruct (hvm_unmap_shared_info H E w0) as [[] ?]
          | |- context [hvm_unmap_hypercall ?w0] =>
              destruct (hvm_unmap_hypercall w0) as [[] ?]
          end); cbn [fst snd hvm log]; reflexivity.
Qed.

Lemma hvm_remove_reverse (H : headers) (E : env) (w : world) :
  hvm_remove H E w =
    (run_all (map release (rev (hvm_stages H E))) ;;; free_hvm) w.
Proof.
  unfold hvm_remove, hvm_stages. cbn [rev app map release run_all].
  unfold free_hvm, xenbus_remove. run.
  repeat (cbn [fst snd hvm log];
          match goal with
          | |- context [hvm_unmap_xenstore ?w0] =>
              destruct (hvm_unmap_xenstore w0) as [[] ?]
          | |- context [hvm_unmap_grant H E ?w0] =>
              destruct (hvm_unmap_grant H E w0) as [[] ?]
          | |- context [hvm_unmap_shared_info H E ?w0] =>
              destruct (hvm_unmap_shared_info H E w0) as [[] ?]
          | |- context [hvm_unmap_hypercall ?w0] =>
              destruct (hvm_unmap_hypercall w0) as [[] ?]
          end); cbn [fst snd hvm log]; reflexivity.
Qed.

(** C6.  Teardown runs in reverse order of acquisition.  Let the
    structure have been allocated and initialised.  If the stages [done]
    have been acquired and the next stage [s] fails with [e], then
    [hvm_probe] returns [e] after running exactly the releases of [done],
    newest first, and freeing the structure; so a failure of the XenStore
    stage runs the grant-table release, the shared-info release and the
    hypercall-page release, in this order.  If all stages are acquired,
    [hvm_probe] registers the structure and returns 0, and [hvm_remove]
    runs the releases of all stages in the reverse of the order of
    acquisition (Xen bus, XenStore, grant table, shared info, hypercall
    page) and frees the structure. *)
Theorem hvm_probe_reverse_teardown
    (H : headers) (E : env) (w w0 : world) :
  hvm_probe_init H E w = (true, w0) ->
  (forall (done : list stage) (s : stage) (rest : list stage)
          (e : errno) (w1 w2 : world),
     hvm_stages H E = done ++ s :: rest ->
     acquire_all done w0 = Some w1 ->
     acquire s w1 = (RC_ERR e, w2) ->
     hvm_probe H E w =
       (RC_ERR e, snd ((run_all (map release (rev done)) ;;; free_hvm) w2)))
  /\
  (forall w1 : world,
     acquire_all (hvm_stages H E) w0 = Some w1 ->
     hvm_probe H E w =
       (RC_OK, {| hvm := hvm w1; log := log w1 ++ [EvPciSetDrvdata] |}) /\
     forall w' : world,
       hvm_remove H E w' =
         (run_all (map release (rev (hvm_stages H E))) ;;; free_hvm) w').
Proof.
  intros Hinit. split.
  - intros done s rest e w1 w2 Hst Hall Hacq.
    rewrite hvm_probe_undo_stack. unfold probe_with_undo.
    unfold bind at 1. rewrite Hinit. cbn [negb].
    unfold bind at 1. rewrite Hst.
    rewrite (attach_with_undo_fails done s rest [] e w0 w1 w2 Hall Hacq).
    rewrite app_nil_r, <- map_rev.
    unfold bind, ret.
    destruct (run_all (map release (rev done)) w2) as [u w3]. cbn [snd].
    destruct (free_hvm w3); reflexivity.
  - intros w1 Hall. split.
    + rewrite hvm_probe_undo_stack. unfold probe_with_undo.
      unfold bind at 1. rewrite Hinit. cbn [negb].
      unfold bind at 1.
      rewrite (attach_with_undo_succeeds (hvm_stages H E) [] w0 w1 Hall).
      reflexivity.
    + intros w'. apply hvm_remove_reverse.
Qed.

(** The second property of the specification's test list: the XenStore
    stage fails after the hypercall page, the shared-info page and the
    grant table have been acquired. *)
Lemma hvm_probe_reverse_teardown_witness :
  exists w2 : world,
    hvm_probe ipxe_headers dead_xenstore_env world0 =
      (RC_ERR (EOTHER 5),
       snd ((run_all [ hvm_unmap_grant ipxe_headers dead_xenstore_env;
                       hvm_unmap_shared_info ipxe_headers dead_xenstore_env;
                       hvm_unmap_hypercall;
                       ret tt ] ;;;
             free_hvm) w2)).
Proof.
  eexists.
  refine (proj1 (hvm_probe_reverse_teardown ipxe_headers dead_xenstore_env
                   world0 _ _)
                (firstn 4 (hvm_stages ipxe_headers dead_xenstore_env))
                {| acquire := hvm_map_xenstore ipxe_headers dead_xenstore_env;
                   release := hvm_unmap_xenstore |}
                (skipn 5 (hvm_stages ipxe_headers dead_xenstore_env))
                (EOTHER 5) _ _ _ _ _).
  - vm_compute. reflexivity.
  - reflexivity.
  - vm_compute. reflexivity.
  - vm_compute. reflexivity.
Defined.

(** ** The CPUID signature scan *)

Lemma memcmp_zero (n : nat) :
  forall a b : list Z,
    List.length a = n ->
    (memcmp a b n =? 0) = bytes_eqb a (firstn n b).
Proof.
  induction n as [|n IH]; intros a b Hlen.
  - destruct a; [reflexivity | discriminate].
  - destruct a as [|x a]; [discriminate|].
    destruct b as [|y b]; [reflexivity|].
    cbn [memcmp firstn bytes_eqb].
    destruct (x =? y) eqn:Hxy; cbn [andb].
    + apply IH. injection Hlen as Hlen. exact Hlen.
    + apply Z.eqb_neq in Hxy. apply Z.eqb_neq. lia.
Qed.

Lemma memcmp_signature (H : headers) (r : cpuid_regs) :
  (memcmp (signature_bytes r) (HVM_CPUID_MAGIC H) 12 =? 0) = magic_match H r.
Proof. apply memcmp_zero. reflexivity. Qed.

Lemma leaves_from_succ (H : headers) (base : Z) (count : nat) :
  leaves_from H base (S count) =
    base :: leaves_from H (base + HVM_CPUID_STEP H) count.
Proof.
  unfold leaves_from. cbn [seq map]. f_equal; [lia|].
  rewrite <- seq_shift, map_map. apply map_ext. intros j. lia.
Qed.

Lemma world_eta (w : world) : {| hvm := hvm w; log := log w |} = w.
Proof. destruct w; reflexivity. Qed.

(** The scan loop, started at [base] with exactly [count] candidate
    leaves left below the maximum, probes them in order and stops at the
    first that carries the signature. *)
Lemma hvm_cpuid_scan_spec (H : headers) (E : env) :
  cpuid_range_ok H ->
  forall (count fuel : nat) (base : Z) (w : world),
    (count < fuel)%nat ->
    0 <= base ->
    base + (Z.of_nat count - 1) * HVM_CPUID_STEP H <= HVM_CPUID_MAX H ->
    HVM_CPUID_MAX H < base + Z.of_nat count * HVM_CPUID_STEP H ->
    hvm_cpuid_scan H E fuel base w =
      match find (fun leaf => magic_match H (cpuid E leaf))
                 (leaves_from H base count) with
      | Some b =>
          (RC_OK,
           {| hvm := set_cpuid_base b (hvm w);
              log := log w ++
                     cpuid_events E
                       (upto_first (fun leaf => magic_match H (cpuid E leaf))
                                   (leaves_from H base count)) ++
                     [EvCpuid (u32 (b + HVM_CPUID_VERSION H))
                              (cpuid E (u32 (b + HVM_CPUID_VERSION H)))] |})
      | None =>
          (RC_ERR ENODEV,
           {| hvm := hvm w;
              log := log w ++ cpuid_events E (leaves_from H base count) |})
      end.
Proof.
  intros [[Hmin Hminmax] [Hstep Hmax]].
  induction count as [|count IH]; intros fuel base w Hfuel Hbase Hlo Hhi.
  - destruct fuel as [|fuel]; [lia|]. cbn [hvm_cpuid_scan].
    destruct (base <=? HVM_CPUID_MAX H) eqn:Hle.
    + apply Z.leb_le in Hle. lia.
    + cbn. rewrite app_nil_r, world_eta. reflexivity.
  - destruct fuel as [|fuel]; [lia|]. cbn [hvm_cpuid_scan].
    destruct (base <=? HVM_CPUID_MAX H) eqn:Hle.
    2:{ apply Z.leb_gt in Hle. nia. }
    apply Z.leb_le in Hle.
    rewrite leaves_from_succ. cbn [find upto_first].
    unfold bind at 1. unfold call at 1. cbn [fst snd hvm log].
    rewrite memcmp_signature.
    destruct (magic_match H (cpuid E base)) eqn:Hm.
    + run. unfold cpuid_events. cbn [map]. rewrite <- !app_assoc.
      reflexivity.
    + rewrite u32_small by lia.
      rewrite IH; [| lia | lia | nia | nia].
      cbn [hvm log].
      destruct (find _ (leaves_from H (base + HVM_CPUID_STEP H) count));
        unfold cpuid_events; cbn [map]; rewrite <- !app_assoc; reflexivity.
Qed.

Lemma hvm_cpuid_base_spec (H : headers) (E : env) (w : world) :
  cpuid_range_ok H ->
  hvm_cpuid_base H E w =
    match find (fun leaf => magic_match H (cpuid E leaf))
               (scanned_leaves H) with
    | Some b =>
        (RC_OK,
         {| hvm := set_cpuid_base b (hvm w);
            log := log w ++
                   cpuid_events E
                     (upto_first (fun leaf => magic_match H (cpuid E leaf))
                                 (scanned_leaves H)) ++
                   [EvCpuid (u32 (b + HVM_CPUID_VERSION H))
                            (cpuid E (u32 (b + HVM_CPUID_VERSION H)))] |})
    | None =>
        (RC_ERR ENODEV,
         {| hvm := hvm w;
            log := log w ++ cpuid_events E (scanned_leaves H) |})
    end.
Proof.
  intros Hok. pose proof Hok as [[Hmin Hminmax] [Hstep Hmax]].
  unfold hvm_cpuid_base, hvm_cpuid_fuel, scanned_leaves.
  set (q := (HVM_CPUID_MAX H - HVM_CPUID_MIN H) / HVM_CPUID_STEP H).
  assert (Hq : 0 <= q) by (apply Z.div_pos; lia).
  pose proof (Z.mul_div_le (HVM_CPUID_MAX H - HVM_CPUID_MIN H)
                           (HVM_CPUID_STEP H) Hstep) as Hlo.
  pose proof (Z.mul_succ_div_gt (HVM_CPUID_MAX H - HVM_CPUID_MIN H)
                                (HVM_CPUID_STEP H) Hstep) as Hhi.
  fold q in Hlo, Hhi.
  rewrite u32_small by lia.
  apply hvm_cpuid_scan_spec; [exact Hok | lia | lia | nia | nia].
Qed.

Lemma find_first_match (p : Z -> bool) (pre : list Z) (b : Z) (post : list Z) :
  (forall l, In l pre -> p l = false) ->
  p b = true ->
  find p (pre ++ b :: post) = Some b /\
  upto_first p (pre ++ b :: post) = pre ++ [b].
Proof.
  intros Hpre Hb. induction pre as [|x pre IH]; cbn [app find upto_first].
  - rewrite Hb. split; reflexivity.
  - rewrite (Hpre x (or_introl eq_refl)).
    destruct IH as [IH1 IH2].
    + intros l Hl. apply Hpre. right. exact Hl.
    + rewrite IH1, IH2. split; reflexivity.
Qed.

Lemma find_no_match (p : Z -> bool) (l : list Z) :
  (forall x, In x l -> p x = false) -> find p l = None.
Proof.
  intros Hl. induction l as [|x l IH]; cbn [find]; [reflexivity|].
  rewrite (Hl x (or_introl eq_refl)). apply IH.
  intros y Hy. apply Hl. right. exact Hy.
Qed.

(** C8.  With range constants that keep the 32-bit loop counter from
    wrapping, [hvm_cpuid_base] probes the leaves from the minimum to the
    maximum at the stride, in order.  At the first leaf [b] whose ebx,
    ecx, edx are byte for byte the magic signature it stops, records [b]
    as the CPUID base, reads the version leaf and returns 0.  If no
    scanned leaf carries the signature it returns [-ENODEV] with the
    device untouched, and [hvm_probe] then frees the structure and returns
    [-ENODEV]: after the set-up of the structure, the log holds the CPUID
    probes and the [free], and nothing else (no allocation of hypercall
    pages, no MSR write, no hypercall, no mapping). *)
Theorem hvm_cpuid_base_first_match (H : headers) (E : env) (w : world) :
  cpuid_range_ok H ->
  (forall (pre : list Z) (b : Z) (post : list Z),
     scanned_leaves H = pre ++ b :: post ->
     (forall l, In l pre -> magic_match H (cpuid E l) = false) ->
     magic_match H (cpuid E b) = true ->
     hvm_cpuid_base H E w =
       (RC_OK,
        {| hvm := set_cpuid_base b (hvm w);
           log := log w ++ cpuid_events E (pre ++ [b]) ++
                  [EvCpuid (u32 (b + HVM_CPUID_VERSION H))
                           (cpuid E (u32 (b + HVM_CPUID_VERSION H)))] |}))
  /\
  ((forall l, In l (scanned_leaves H) -> magic_match H (cpuid E l) = false) ->
   hvm_cpuid_base H E w =
     (RC_ERR ENODEV,
      {| hvm := hvm w; log := log w ++ cpuid_events E (scanned_leaves H) |})
   /\
   (zalloc E (log w) = true ->
    hvm_probe H E w =
      (RC_ERR ENODEV,
       {| hvm := set_mmio_len (sz H (pci_bar_size E (HVM_MMIO_BAR H)))
                   (set_mmio (sz H (pci_bar_start E (HVM_MMIO_BAR H)))
                             hvm_zero);
          log := log w ++
                 [ EvZalloc true;
                   EvPciBarStart (HVM_MMIO_BAR H)
                                 (pci_bar_start E (HVM_MMIO_BAR H));
                   EvPciBarSize (HVM_MMIO_BAR H)
                                (pci_bar_size E (HVM_MMIO_BAR H));
                   EvAdjustPciDevice ] ++
                 cpuid_events E (scanned_leaves H) ++
                 [EvFree] |}))).
Proof.
  intros Hok. split.
  - intros pre b post Hsplit Hpre Hb.
    rewrite (hvm_cpuid_base_spec H E w Hok). rewrite Hsplit.
    destruct (find_first_match (fun leaf => magic_match H (cpuid E leaf))
                pre b post Hpre Hb) as [Hfind Hupto].
    rewrite Hfind, Hupto. reflexivity.
  - intros Hnone.
    assert (Hbase : forall w', hvm_cpuid_base H E w' =
              (RC_ERR ENODEV,
               {| hvm := hvm w';
                  log := log w' ++ cpuid_events E (scanned_leaves H) |})).
    { intros w'. rewrite (hvm_cpuid_base_spec H E w' Hok).
      rewrite (find_no_match _ _ Hnone). reflexivity. }
    split; [apply Hbase|].
    intros Hz. unfold hvm_probe. run. rewrite Hz. cbn [negb].
    rewrite Hbase. unfold free_hvm. run.
    rewrite <- !app_assoc. reflexivity.
Qed.

(** On a Xen guest the very first leaf carries the signature; on a
    machine without Xen the probe fails with nothing acquired. *)
Lemma hvm_cpuid_base_first_match_witness :
  hvm_cpuid_base ipxe_headers good_env world0 =
    (RC_OK,
     {| hvm := set_cpuid_base 0x40000000 hvm_zero;
        log := [ EvCpuid 0x40000000 (xen_cpuid 0x40000000);
                 EvCpuid 0x40000001 (xen_cpuid 0x40000001) ] |})
  /\
  fst (hvm_probe ipxe_headers bare_env world0) = RC_ERR ENODEV.
Proof.
  assert (Hok : cpuid_range_ok ipxe_headers)
    by (unfold cpuid_range_ok; cbn; lia).
  split.
  - apply (proj1 (hvm_cpuid_base_first_match ipxe_headers good_env world0
                    Hok)
                 [] 0x40000000
                 (tl (scanned_leaves ipxe_headers))).
    + reflexivity.
    + intros l [].
    + reflexivity.
  - rewrite (proj2 (proj2 (hvm_cpuid_base_first_match ipxe_headers bare_env
                             world0 Hok)
                          (fun l _ => eq_refl))
                   eq_refl).
    reflexivity.
Defined.

(** ** The loop bounds are never hit

    The loops of the allocator are run with [S (Z.to_nat pages)] units of
    fuel.  That is always enough: with more fuel than iterations left,
    the amount of fuel does not matter. *)
Lemma hvm_ioremap_add_fuel (H : headers) (E : env) (space pages phys : Z) :
  pages < 2 ^ 32 ->
  forall (fuel1 fuel2 : nat) (i : Z) (w : world),
    0 <= i ->
    (Z.to_nat (pages - i) < fuel1)%nat ->
    (Z.to_nat (pages - i) < fuel2)%nat ->
    hvm_ioremap_add H E fuel1 space pages phys i w =
      hvm_ioremap_add H E fuel2 space pages phys i w.
Proof.
  intros Hpages.
  induction fuel1 as [|fuel1 IH]; intros fuel2 i w Hi Hf1 Hf2; [lia|].
  destruct fuel2 as [|fuel2]; [lia|]. cbn [hvm_ioremap_add].
  destruct (i <? pages) eqn:Hlt; [|reflexivity].
  apply Z.ltb_lt in Hlt. run.
  match goal with |- context [negb ?c] => destruct c end; cbn [negb];
    [|reflexivity].
  rewrite u32_small by lia. apply IH; lia.
Qed.

Lemma hvm_ioremap_add_index (H : headers) (E : env) (space pages phys : Z) :
  pages < 2 ^ 32 ->
  forall (fuel : nat) (i i' : Z) (w : world),
    0 <= i ->
    fst (hvm_ioremap_add H E fuel space pages phys i w) = Some i' ->
    i <= i' < pages.
Proof.
  intros Hpages.
  induction fuel as [|fuel IH]; intros i i' w Hi Hres;
    cbn [hvm_ioremap_add] in Hres; [discriminate|].
  destruct (i <? pages) eqn:Hlt; [|discriminate].
  apply Z.ltb_lt in Hlt. revert Hres. run.
  match goal with |- context [negb ?c] => destruct c end; cbn [negb fst].
  - rewrite u32_small by lia. intros Hres. apply IH in Hres; lia.
  - intros Hres. injection Hres as <-. lia.
Qed.

Lemma hvm_ioremap_undo_fuel (H : headers) (E : env) (phys : Z) :
  forall (fuel1 fuel2 : nat) (i : Z) (add : xen_add_to_physmap)
         (remove : xen_remove_from_physmap) (w : world),
    0 <= i < 2 ^ 32 ->
    (Z.to_nat (s32 i + 1) < fuel1)%nat ->
    (Z.to_nat (s32 i + 1) < fuel2)%nat ->
    hvm_ioremap_undo H E fuel1 phys i add remove w =
      hvm_ioremap_undo H E fuel2 phys i add remove w.
Proof.
  induction fuel1 as [|fuel1 IH]; intros fuel2 i add remove w Hi Hf1 Hf2;
    [lia|].
  destruct fuel2 as [|fuel2]; [lia|]. cbn [hvm_ioremap_undo].
  destruct (0 <=? s32 i) eqn:Hge; [|reflexivity].
  apply Z.leb_le in Hge. run.
  assert (Hs : s32 i = i).
  { unfold s32 in *. rewrite u32_small in * by lia.
    destruct (i <? 2 ^ 31); lia. }
  destruct (Z.eq_dec i 0) as [->|Hnz].
  - destruct fuel1 as [|fuel1]; [cbn in Hf1; lia|].
    destruct fuel2 as [|fuel2]; [cbn in Hf2; lia|].
    reflexivity.
  - assert (Hi31 : i < 2 ^ 31).
    { unfold s32 in Hs. rewrite u32_small in Hs by lia.
      destruct (i <? 2 ^ 31) eqn:Hc; [apply Z.ltb_lt in Hc; lia | lia]. }
    rewrite (u32_small (i - 1)) by lia.
    apply IH; rewrite ?s32_small by lia; lia.
Qed.

Lemma hvm_iounmap_remove_fuel (H : headers) (E : env) (pages phys : Z) :
  pages < 2 ^ 32 ->
  forall (fuel1 fuel2 : nat) (i : Z) (w : world),
    0 <= i ->
    (Z.to_nat (pages - i) < fuel1)%nat ->
    (Z.to_nat (pages - i) < fuel2)%nat ->
    hvm_iounmap_remove H E fuel1 pages phys i w =
      hvm_iounmap_remove H E fuel2 pages phys i w.
Proof.
  intros Hpages.
  induction fuel1 as [|fuel1 IH]; intros fuel2 i w Hi Hf1 Hf2; [lia|].
  destruct fuel2 as [|fuel2]; [lia|]. cbn [hvm_iounmap_remove].
  destruct (i <? pages) eqn:Hlt; [|reflexivity].
  apply Z.ltb_lt in Hlt. run.
  rewrite u32_small by lia. apply IH; lia.
Qed.

(** The unwinding loop starts below the index at which the adding loop
    stopped, so its fuel is enough as well. *)
Lemma hvm_ioremap_undo_budget (pages i : Z) :
  0 <= i < pages -> pages < 2 ^ 32 ->
  (Z.to_nat (s32 (u32 (i - 1)) + 1) < S (Z.to_nat pages))%nat.
Proof.
  intros Hi Hpages.
  assert (Hs : s32 (u32 (i - 1)) <= i - 1).
  { destruct (Z.eq_dec i 0) as [->|Hnz].
    - rewrite s32_minus_one. lia.
    - rewrite (u32_small (i - 1)) by lia.
      unfold s32. rewrite (u32_small (i - 1)) by lia.
      destruct (i - 1 <? 2 ^ 31); lia. }
  lia.
Qed.

(** ** What the allocator asks of the hypervisor *)

Lemma since_app (w : world) (d : hvm_device) (t : trace) :
  since w {| hvm := d; log := log w ++ t |} = t.
Proof.
  unfold since. cbn [log]. rewrite skipn_app, skipn_all, Nat.sub_diag.
  reflexivity.
Qed.

Lemma hvm_iounmap_remove_log (H : headers) (E : env) (pages phys : Z) :
  pages < 2 ^ 32 ->
  forall (fuel : nat) (i : Z) (w : world),
    0 <= i ->
    (Z.to_nat (pages - i) < fuel)%nat ->
    exists answers : list Z,
      List.length answers = Z.to_nat (pages - i) /\
      log (snd (hvm_iounmap_remove H E fuel pages phys i w)) =
        log w ++ remove_requests H phys i answers.
Proof.
  intros Hpages.
  induction fuel as [|fuel IH]; intros i w Hi Hfuel; [lia|].
  cbn [hvm_iounmap_remove].
  destruct (i <? pages) eqn:Hlt.
  - apply Z.ltb_lt in Hlt. run. rewrite u32_small by lia.
    match goal with
    | |- context [hvm_iounmap_remove H E fuel pages phys (i + 1) ?w0] =>
        destruct (IH (i + 1) w0) as [answers [Hlen Hlog]]; [lia | lia |]
    end.
    exists (xenmem_remove_from_physmap E (log w)
              {| remove_domid := DOMID_SELF H;
                 remove_gpfn := sz H (sz H (phys / PAGE_SIZE H) + i) |}
            :: answers).
    split.
    + cbn [List.length]. rewrite Hlen.
      replace (pages - i) with (Z.succ (pages - (i + 1))) by lia.
      rewrite Z2Nat.inj_succ by lia. reflexivity.
    + rewrite Hlog. cbn [log remove_requests]. unfold page_gpfn.
      rewrite <- app_assoc. reflexivity.
  - apply Z.ltb_ge in Hlt. exists []. split.
    + cbn [List.length]. lia.
    + cbn. rewrite app_nil_r. reflexivity.
Qed.

(** The run of [hvm_iounmap], event by event. *)
Lemma hvm_iounmap_run (H : headers) (E : env) (mmio pages : Z)
    (w : world) :
  exists answers : list Z,
    List.length answers = Z.to_nat (u32 pages) /\
    hvm_iounmap H E mmio pages w =
      (tt,
       {| hvm := hvm w;
          log := log w ++
                 EvIounmap mmio
                   :: remove_requests H (virt_to_phys E mmio) 0 answers |}).
Proof.
  pose proof (u32_range pages) as Hp.
  pose proof (hvm_iounmap_hvm H E mmio pages w) as Hhvm.
  revert Hhvm. unfold hvm_iounmap. run.
  match goal with
  | |- context [hvm_iounmap_remove H E ?f ?n ?ph 0 ?w0] =>
      destruct (hvm_iounmap_remove_log H E n ph (proj2 Hp) f 0 w0)
        as [answers [Hlen Hlog]];
        [lia | rewrite Z.sub_0_r; lia |];
      destruct (hvm_iounmap_remove H E f n ph 0 w0) as [[] w1]
  end.
  cbn [snd log] in *. intros Hhvm.
  exists answers. split; [rewrite Hlen; f_equal; lia|].
  destruct w1 as [d1 l1]. cbn [hvm log] in *. subst d1 l1.
  rewrite <- app_assoc. reflexivity.
Qed.

(** X1.  [hvm_iounmap] releases the virtual mapping first and then asks
    the hypervisor to remove every page of it, in ascending order, page
    [i] under the frame number [mmio_phys / PAGE_SIZE + i].  It does so
    whatever the hypervisor answers: a rejected removal stops nothing.
    The device structure is left as it was. *)
Theorem hvm_iounmap_requests (H : headers) (E : env) (mmio pages : Z)
    (w : world) :
  exists answers : list Z,
    List.length answers = Z.to_nat (u32 pages) /\
    hvm_iounmap H E mmio pages w =
      (tt,
       {| hvm := hvm w;
          log := log w ++
                 EvIounmap mmio
                   :: remove_requests H (virt_to_phys E mmio) 0 answers |}).
Proof. exact (hvm_iounmap_run H E mmio pages w). Qed.

Lemma add_requests_app (H : headers) (space phys : Z) (n m : nat) :
  forall i : Z,
    add_requests H space phys i (n + m) =
      add_requests H space phys i n ++
      add_requests H space phys (i + Z.of_nat n) m.
Proof.
  induction n as [|n IH]; intros i.
  - cbn. rewrite Z.add_0_r. reflexivity.
  - cbn [Nat.add add_requests app]. rewrite IH. do 3 f_equal. lia.
Qed.

(** The adding loop: it logs accepted requests for consecutive pages
    and, if it stops early, one rejected request for the page at which it
    stops. *)
Lemma hvm_ioremap_add_log (H : headers) (E : env) (space pages phys : Z) :
  pages < 2 ^ 32 ->
  forall (fuel : nat) (i : Z) (w : world),
    0 <= i ->
    (Z.to_nat (pages - i) < fuel)%nat ->
    match fst (hvm_ioremap_add H E fuel space pages phys i w) with
    | None =>
        log (snd (hvm_ioremap_add H E fuel space pages phys i w)) =
          log w ++ add_requests H space phys i (Z.to_nat (pages - i))
    | Some i' =>
        i <= i' < pages /\
        exists xenrc : Z,
          xenrc <> 0 /\
          log (snd (hvm_ioremap_add H E fuel space pages phys i w)) =
            log w ++ add_requests H space phys i (Z.to_nat (i' - i)) ++
            [EvAddToPhysmap {| add_domid := DOMID_SELF H; add_idx := i';
                               add_space := space;
                               add_gpfn := page_gpfn H phys i' |} xenrc]
    end.
Proof.
  intros Hpages.
  induction fuel as [|fuel IH]; intros i w Hi Hfuel; [lia|].
  cbn [hvm_ioremap_add].
  destruct (i <? pages) eqn:Hlt.
  2:{ apply Z.ltb_ge in Hlt. cbn [ret fst snd].
      replace (Z.to_nat (pages - i)) with 0%nat by lia.
      cbn. rewrite app_nil_r. reflexivity. }
  apply Z.ltb_lt in Hlt. run.
  set (a := {| add_domid := DOMID_SELF H; add_idx := i; add_space := space;
               add_gpfn := sz H (sz H (phys / PAGE_SIZE H) + i) |}).
  set (x := xenmem_add_to_physmap E (log w) a).
  destruct (x =? 0) eqn:Hx; cbn [negb].
  - apply Z.eqb_eq in Hx. rewrite u32_small by lia.
    specialize (IH (i + 1) {| hvm := hvm w;
                              log := log w ++ [EvAddToPhysmap a x] |}).
    destruct (hvm_ioremap_add H E fuel space pages phys (i + 1) _)
      as [[i'|] w1]; cbn [fst snd log] in *.
    + destruct IH as [Hrange [xenrc [Hnz Hlog]]]; [lia | lia |].
      split; [lia|]. exists xenrc. split; [exact Hnz|].
      rewrite Hlog. rewrite <- app_assoc. f_equal.
      replace (Z.to_nat (i' - i)) with (S (Z.to_nat (i' - (i + 1)))) by lia.
      cbn [add_requests app]. rewrite Hx. reflexivity.
    + rewrite IH by lia. rewrite <- app_assoc. f_equal.
      replace (Z.to_nat (pages - i))
        with (S (Z.to_nat (pages - (i + 1)))) by lia.
      cbn [add_requests app]. rewrite Hx. reflexivity.
  - apply Z.eqb_neq in Hx. cbn [fst snd log ret].
    split; [lia|]. exists x. split; [exact Hx|].
    rewrite Z.sub_diag. reflexivity.
Qed.

(** The run of a successful [hvm_ioremap], event by event. *)
Lemma hvm_ioremap_success_run (H : headers) (E : env)
    (space pages : Z) (w : world) :
  fst (hvm_ioremap H E space pages w) <> NULL ->
  let start := sz H (mmio (hvm w) + mmio_offset (hvm w)) in
  let len := ioremap_len H pages in
  let p := ioremap E (log w) start len in
  hvm_ioremap H E space pages w =
    (p,
     {| hvm := set_mmio_offset (sz H (mmio_offset (hvm w) + len)) (hvm w);
        log := log w ++
               EvIoremap start len p
                 :: add_requests H space (virt_to_phys E p) 0
                                 (Z.to_nat (u32 pages)) |}).
Proof.
  pose proof (u32_range pages) as Hp.
  cbv zeta. unfold hvm_ioremap, ioremap_len. run.
  destruct (sz H (mmio_offset (hvm w) + sz H (u32 (u32 pages * PAGE_SIZE H)))
            >? mmio_len (hvm w)); [cbn; congruence|].
  set (p := ioremap E (log w) _ _).
  destruct (p =? NULL); [cbn; congruence|].
  match goal with
  | |- context [hvm_ioremap_add H E ?f ?s ?n ?ph 0 ?w0] =>
      pose proof (hvm_ioremap_add_log H E s n ph (proj2 Hp) f 0 w0
                    (Z.le_refl 0)) as Hlog;
      pose proof (hvm_ioremap_add_hvm H E s n ph f 0 w0) as Hhvm;
      destruct (hvm_ioremap_add H E f s n ph 0 w0) as [[i'|] w1]
  end; cbn [fst snd hvm log] in *.
  - match goal with
    | |- context [hvm_ioremap_undo H E ?f ?ph ?i ?a ?r ?w0] =>
        destruct (hvm_ioremap_undo H E f ph i a r w0)
    end.
    cbn. congruence.
  - intros _. rewrite Z.sub_0_r in Hlog. rewrite Hlog by lia.
    rewrite Hhvm, <- app_assoc. reflexivity.
Qed.

(** X2.  A call of [hvm_ioremap] that returns a mapping has mapped the
    window range at the current offset and has put every page of it into
    the physical address map: after the [ioremap] the log holds one
    accepted add-to-physmap request per page, in ascending order, page
    [i] with index [i] of the requested space and frame number
    [mmio_phys / PAGE_SIZE + i].  Nothing is removed or unmapped; the
    pointer returned is the one [ioremap] gave, and only the offset of the
    device structure changes. *)
Theorem hvm_ioremap_success_requests (H : headers) (E : env)
    (space pages : Z) (w : world) :
  fst (hvm_ioremap H E space pages w) <> NULL ->
  let start := sz H (mmio (hvm w) + mmio_offset (hvm w)) in
  let len := ioremap_len H pages in
  let p := ioremap E (log w) start len in
  hvm_ioremap H E space pages w =
    (p,
     {| hvm := set_mmio_offset (sz H (mmio_offset (hvm w) + len)) (hvm w);
        log := log w ++
               EvIoremap start len p
                 :: add_requests H space (virt_to_phys E p) 0
                                 (Z.to_nat (u32 pages)) |}).
Proof. exact (hvm_ioremap_success_run H E space pages w). Qed.

(** Four grant frames on an accepting
    hypervisor. *)
Lemma hvm_ioremap_success_requests_witness :
  hvm_ioremap ipxe_headers good_env 1 4 (window_world 0x1000) =
    (0xf2001000,
     {| hvm := hvm (window_world 0x5000);
        log := EvIoremap 0xf2001000 0x4000 0xf2001000
                 :: add_requests ipxe_headers 1 0xf2001000 0 4 |}).
Proof.
  apply (hvm_ioremap_success_requests ipxe_headers good_env 1 4
           (window_world 0x1000)).
  vm_compute. discriminate.
Defined.

(** X3.  A call of [hvm_ioremap] for at most 2^31 pages that passes the
    space check, obtains a virtual mapping [p] and still returns NULL has
    stopped at a rejected add-to-physmap request, for some page [i]: the
    pages below [i] had been added.  It then issues exactly [i] removal
    requests, releases the mapping with [iounmap] and leaves the device
    structure, offset included, as it was.  The removal requests all
    carry the frame number found in the local [remove] on entry. *)
Theorem hvm_ioremap_failure_unwind (H : headers) (E : env)
    (space pages : Z) (w : world) :
  let start := sz H (mmio (hvm w) + mmio_offset (hvm w)) in
  let len := ioremap_len H pages in
  let p := ioremap E (log w) start len in
  let phys := virt_to_phys E p in
  u32 pages <= 2 ^ 31 ->
  sz H (mmio_offset (hvm w) + len) <= mmio_len (hvm w) ->
  p <> NULL ->
  fst (hvm_ioremap H E space pages w) = NULL ->
  exists (i xenrc : Z) (answers : list Z),
    0 <= i < u32 pages /\
    xenrc <> 0 /\
    List.length answers = Z.to_nat i /\
    let h := log w ++
             EvIoremap start len p
               :: add_requests H space phys 0 (Z.to_nat i) ++
                  [EvAddToPhysmap {| add_domid := DOMID_SELF H; add_idx := i;
                                     add_space := space;
                                     add_gpfn := page_gpfn H phys i |}
                                  xenrc] in
    hvm_ioremap H E space pages w =
      (NULL,
       {| hvm := hvm w;
          log := h ++
                 map (EvRemoveFromPhysmap
                        {| remove_domid := DOMID_SELF H;
                           remove_gpfn := remove_gpfn (stack_remove E h) |})
                     answers ++
                 [EvIounmap p] |}).
Proof.
  pose proof (u32_range pages) as Hp.
  cbv zeta. intros Hhalf Hchk Hnn.
  unfold hvm_ioremap, ioremap_len in *. run.
  rewrite Z.gtb_ltb. apply Z.ltb_ge in Hchk. rewrite Hchk.
  set (p := ioremap E (log w) _ _) in *.
  destruct (p =? NULL) eqn:Hpn; [apply Z.eqb_eq in Hpn; contradiction|].
  match goal with
  | |- context [hvm_ioremap_add H E ?f ?s ?n ?ph 0 ?w0] =>
      pose proof (hvm_ioremap_add_log H E s n ph (proj2 Hp) f 0 w0
                    (Z.le_refl 0)) as Hlog;
      pose proof (hvm_ioremap_add_hvm H E s n ph f 0 w0) as Hhvm;
      destruct (hvm_ioremap_add H E f s n ph 0 w0) as [[i|] w1]
  end; cbn [fst snd hvm log] in *.
  2:{ intros Hnull. contradiction. }
  intros _.
  destruct Hlog as [Hrange [xenrc [Hnz Hlog]]]; [lia|].
  rewrite Z.sub_0_r in Hlog. rewrite <- app_assoc in Hlog.
  cbn [app] in Hlog.
  exists i, xenrc.
  set (a := {| add_domid := DOMID_SELF H; add_idx := i; add_space := space;
               add_gpfn := sz H (sz H (virt_to_phys E p / PAGE_SIZE H) + i) |}).
  set (r := stack_remove E (log w1)).
  pose proof (hvm_ioremap_undo_hvm H E (virt_to_phys E p)
                (S (Z.to_nat (u32 pages))) (u32 (i - 1)) a r w1) as Hundo.
  destruct (Z.eq_dec i 0) as [Hz|Hnz0].
  - exists []. subst i. repeat split; [lia | lia | exact Hnz |].
    revert Hundo. cbn [hvm_ioremap_undo]. rewrite s32_minus_one.
    cbn [Z.leb Z.compare ret snd fst map app]. intros _.
    destruct w1 as [d1 l1]. cbn [hvm log] in *. subst d1 l1.
    subst r. cbn [log]. rewrite <- app_assoc. reflexivity.
  - rewrite (u32_small (i - 1)) in * by lia.
    destruct (hvm_ioremap_undo_requests H E (virt_to_phys E p)
                (S (Z.to_nat (u32 pages))) (i - 1) a r w1)
      as [answers [Hlen Hulog]]; [lia | lia |].
    exists answers. repeat split; [lia | lia | exact Hnz | |].
    + rewrite Hlen. f_equal. lia.
    + destruct (hvm_ioremap_undo H E (S (Z.to_nat (u32 pages)))
                  (virt_to_phys E p) (i - 1) a r w1) as [u w2].
      cbn [snd fst hvm log] in *.
      destruct w2 as [d2 l2]. cbn [hvm log] in *. subst d2 l2.
      rewrite Hhvm. subst r. rewrite Hlog.
      rewrite <- !app_assoc. reflexivity.
Qed.

(** The second of two pages is rejected: one removal, then the unmap. *)
Lemma hvm_ioremap_failure_unwind_witness :
  exists (i xenrc : Z) (answers : list Z),
    0 <= i < 2 /\ xenrc <> 0 /\ List.length answers = Z.to_nat i /\
    fst (hvm_ioremap ipxe_headers second_page_fails_env 1 2 (window_world 0))
      = NULL.
Proof.
  destruct (hvm_ioremap_failure_unwind ipxe_headers second_page_fails_env
              1 2 (window_world 0))
    as [i [xenrc [answers [Hi [Hx [Hlen Hrun]]]]]].
  - vm_compute. discriminate.
  - vm_compute. discriminate.
  - vm_compute. discriminate.
  - vm_compute. reflexivity.
  - exists i, xenrc, answers. cbv zeta in Hrun. rewrite Hrun.
    repeat split; try assumption; apply Hi.
Defined.

Lemma removed_frames_remove_requests (H : headers) (space phys : Z)
    (answers : list Z) :
  forall i : Z,
    removed_frames (remove_requests H phys i answers) =
      added_frames (add_requests H space phys i (List.length answers)).
Proof.
  induction answers as [|x answers IH]; intros i; [reflexivity|].
  cbn [remove_requests removed_frames List.length add_requests added_frames
       remove_gpfn add_gpfn].
  rewrite IH. reflexivity.
Qed.

(** X4.  Unmapping undoes mapping, frame by frame: when [hvm_ioremap]
    has returned a mapping for [pages] pages, [hvm_iounmap] of that
    mapping with the same page count asks the hypervisor to remove exactly
    the frames that [hvm_ioremap] had asked it to add, in the same
    order. *)
Theorem hvm_iounmap_removes_added_frames (H : headers) (E : env)
    (space pages : Z) (w w2 : world) :
  fst (hvm_ioremap H E space pages w) <> NULL ->
  removed_frames
    (since w2 (snd (hvm_iounmap H E (fst (hvm_ioremap H E space pages w))
                                pages w2))) =
  added_frames (since w (snd (hvm_ioremap H E space pages w))).
Proof.
  intros Hok.
  rewrite (hvm_ioremap_success_run H E space pages w Hok).
  cbn [fst snd].
  set (p := ioremap E (log w) _ _).
  destruct (hvm_iounmap_run H E p pages w2) as [answers [Hlen Hrun]].
  rewrite Hrun. cbn [snd]. rewrite !since_app.
  cbn [removed_frames added_frames].
  rewrite (removed_frames_remove_requests H space). rewrite Hlen.
  reflexivity.
Qed.

(** Four grant frames mapped and unmapped again. *)
Lemma hvm_iounmap_removes_added_frames_witness :
  removed_frames
    (since world0
       (snd (hvm_iounmap ipxe_headers good_env
               (fst (hvm_ioremap ipxe_headers good_env 1 4
                                 (window_world 0x1000)))
               4 world0))) =
  added_frames
    (since (window_world 0x1000)
       (snd (hvm_ioremap ipxe_headers good_env 1 4 (window_world 0x1000)))).
Proof.
  apply (hvm_iounmap_removes_added_frames ipxe_headers good_env 1 4
           (window_world 0x1000) world0).
  vm_compute. discriminate.
Defined.

(** ** The grant table *)

(** What a successful [hvm_map_grant] stores. *)
Lemma hvm_map_grant_stores (H : headers) (E : env) (w : world) :
  fst (hvm_map_grant H E w) = RC_OK ->
  let nr := u32 (snd (xengrant_query_size E (log w) (DOMID_SELF H))) in
  xen_grant_table (hvm (snd (hvm_map_grant H E w))) <> NULL /\
  xen_grant_count (hvm (snd (hvm_map_grant H E w))) =
    u32 (sz H (u32 (nr * PAGE_SIZE H)) / sizeof_grant_entry H).
Proof.
  unfold hvm_map_grant. run.
  destruct (negb (fst (xengrant_query_size E (log w) (DOMID_SELF H)) =? 0));
    [cbn; discriminate|].
  match goal with |- context [xengrant_set_version E ?h 2] =>
    destruct (negb (fst (xengrant_set_version E h 2) =? 0));
      [cbn; discriminate|];
    destruct (negb (u32 (snd (xengrant_set_version E h 2)) =? 2));
      [cbn; discriminate|]
  end.
  match goal with |- context [hvm_ioremap H E ?s ?n ?w0] =>
    destruct (hvm_ioremap H E s n w0) as [p w1]
  end.
  cbn [fst snd hvm log].
  destruct (p =? NULL) eqn:Hp; cbn [fst snd hvm]; [discriminate|].
  intros _. apply Z.eqb_neq in Hp. split; [exact Hp | reflexivity].
Qed.

(** X5.  [hvm_unmap_grant] works the page count back out of the stored
    entry count.  When a grant entry has a positive size that divides the
    page size, and the table of [nr] frames is smaller than 4 GiB, it
    finds [nr] again: after a successful [hvm_map_grant] it is
    [hvm_iounmap] of the stored table with the number of frames the size
    query had reported. *)
Theorem hvm_unmap_grant_page_count (H : headers) (E : env) (w w2 : world) :
  let nr := u32 (snd (xengrant_query_size E (log w) (DOMID_SELF H))) in
  0 < sizeof_grant_entry H ->
  (sizeof_grant_entry H | PAGE_SIZE H) ->
  0 < PAGE_SIZE H ->
  nr * PAGE_SIZE H < 2 ^ 32 ->
  fst (hvm_map_grant H E w) = RC_OK ->
  hvm w2 = hvm (snd (hvm_map_grant H E w)) ->
  xen_grant_table (hvm w2) <> NULL /\
  hvm_unmap_grant H E w2 = hvm_iounmap H E (xen_grant_table (hvm w2)) nr w2.
Proof.
  cbv zeta. intros Hsz [m Hm] Hps Hsmall Hok Hsame.
  destruct (hvm_map_grant_stores H E w Hok) as [Htable Hcount].
  cbv zeta in Hcount. rewrite <- Hsame in Htable, Hcount.
  split; [exact Htable|].
  unfold hvm_unmap_grant. run. rewrite Hcount.
  set (nr := u32 (snd (xengrant_query_size E (log w) (DOMID_SELF H)))) in *.
  pose proof (u32_range (snd (xengrant_query_size E (log w) (DOMID_SELF H))))
    as Hnr. fold nr in Hnr.
  assert (Hm0 : 0 < m) by nia.
  assert (Hlong : 2 ^ 32 <= 2 ^ long_bits (abi H))
    by (destruct (abi H); simpl long_bits; lia).
  rewrite (u32_small (nr * PAGE_SIZE H)) by nia.
  unfold sz. rewrite (ulong_small _ (nr * PAGE_SIZE H)) by nia.
  assert (Hdiv : nr * PAGE_SIZE H / sizeof_grant_entry H = nr * m).
  { rewrite Hm, Z.mul_assoc. apply Z.div_mul. lia. }
  rewrite Hdiv. rewrite (u32_small (nr * m)) by nia.
  replace (nr * m * sizeof_grant_entry H) with (nr * PAGE_SIZE H) by nia.
  rewrite (ulong_small _ (nr * PAGE_SIZE H)) by nia.
  rewrite Z.div_mul by lia. reflexivity.
Qed.

(** Four frames of 256 entries of 16 bytes. *)
Lemma hvm_unmap_grant_page_count_witness :
  hvm_unmap_grant ipxe_headers good_env
    (snd (hvm_map_grant ipxe_headers good_env (window_world 0x1000))) =
  hvm_iounmap ipxe_headers good_env 0xf2001000 4
    (snd (hvm_map_grant ipxe_headers good_env (window_world 0x1000))).
Proof.
  apply (hvm_unmap_grant_page_count ipxe_headers good_env
           (window_world 0x1000)
           (snd (hvm_map_grant ipxe_headers good_env (window_world 0x1000)))).
  - reflexivity.
  - exists 256. reflexivity.
  - reflexivity.
  - reflexivity.
  - reflexivity.
  - reflexivity.
Defined.

(** ** Detaching *)

(** The run of [hvm_remove], event by event. *)
Lemma hvm_remove_run (H : headers) (E : env) (w : world) :
  let d := hvm w in
  let grant_pages :=
    u32 (sz H (xen_grant_count d * sizeof_grant_entry H) / PAGE_SIZE H) in
  exists grant_answers shared_answers : list Z,
    List.length grant_answers = Z.to_nat grant_pages /\
    List.length shared_answers = 1%nat /\
    hvm_remove H E w =
      (tt,
       {| hvm := d;
          log := log w ++
                 [ EvXenbusRemove;
                   EvIounmap (xen_store_intf d);
                   EvIounmap (xen_grant_table d) ] ++
                 remove_requests H (virt_to_phys E (xen_grant_table d)) 0
                                 grant_answers ++
                 [ EvIounmap (xen_shared d) ] ++
                 remove_requests H (virt_to_phys E (xen_shared d)) 0
                                 shared_answers ++
                 [ EvFreeDma (xen_hypercall d) (hypercall_len d);
                   EvFree ] |}).
Proof.
  cbv zeta.
  unfold hvm_remove, hvm_unmap_xenstore, hvm_unmap_grant,
    hvm_unmap_shared_info, hvm_unmap_hypercall, xenbus_remove, free_hvm.
  run.
  match goal with
  | |- context [hvm_iounmap H E ?p ?n ?w0] =>
      destruct (hvm_iounmap_run H E p n w0) as [ga [Hga Hgrun]];
      rewrite Hgrun
  end.
  cbn [fst snd hvm log].
  match goal with
  | |- context [hvm_iounmap H E ?p ?n ?w0] =>
      destruct (hvm_iounmap_run H E p n w0) as [sa [Hsa Hsrun]];
      rewrite Hsrun
  end.
  cbn [fst snd hvm log].
  exists ga, sa. split; [exact Hga|]. split; [exact Hsa|].
  rewrite <- !app_assoc. reflexivity.
Qed.

(** X6.  [hvm_remove] cannot fail and does not stop half way: whatever
    the hypervisor answers to the removal requests, it removes the Xen
    bus, unmaps the XenStore page, unmaps the grant table and asks for the
    removal of each of its pages, unmaps the shared-info page and asks for
    the removal of its one page, frees the hypercall pages with the length
    that was recorded for them, and frees the structure, in this order
    and nothing else. *)
Theorem hvm_remove_teardown (H : headers) (E : env) (w : world) :
  let d := hvm w in
  let grant_pages :=
    u32 (sz H (xen_grant_count d * sizeof_grant_entry H) / PAGE_SIZE H) in
  exists grant_answers shared_answers : list Z,
    List.length grant_answers = Z.to_nat grant_pages /\
    List.length shared_answers = 1%nat /\
    hvm_remove H E w =
      (tt,
       {| hvm := d;
          log := log w ++
                 [ EvXenbusRemove;
                   EvIounmap (xen_store_intf d);
                   EvIounmap (xen_grant_table d) ] ++
                 remove_requests H (virt_to_phys E (xen_grant_table d)) 0
                                 grant_answers ++
                 [ EvIounmap (xen_shared d) ] ++
                 remove_requests H (virt_to_phys E (xen_shared d)) 0
                                 shared_answers ++
                 [ EvFreeDma (xen_hypercall d) (hypercall_len d);
                   EvFree ] |}).
Proof. exact (hvm_remove_run H E w). Qed.

(** ** Frame conditions of the components *)

Lemma emits_ret {A : Type} (Q : event -> Prop) (a : A) : emits Q (ret a).
Proof. intros w. exists []. cbn. rewrite app_nil_r. auto. Qed.

Lemma emits_get (Q : event -> Prop) : emits Q get_hvm.
Proof. intros w. exists []. cbn. rewrite app_nil_r. auto. Qed.

Lemma emits_modify (Q : event -> Prop) (f : hvm_device -> hvm_device) :
  emits Q (modify_hvm f).
Proof. intros w. exists []. cbn. rewrite app_nil_r. auto. Qed.

Lemma emits_peek {A : Type} (Q : event -> Prop) (oracle : trace -> A) :
  emits Q (peek oracle).
Proof. intros w. exists []. cbn. rewrite app_nil_r. auto. Qed.

Lemma emits_call {A : Type} (Q : event -> Prop) (oracle : trace -> A)
    (ev : A -> event) :
  (forall r, Q (ev r)) -> emits Q (call oracle ev).
Proof. intros HQ w. eexists. cbn. split; [reflexivity | auto]. Qed.

Lemma emits_bind {A B : Type} (Q : event -> Prop) (m : M A) (k : A -> M B) :
  emits Q m -> (forall a, emits Q (k a)) -> emits Q (bind m k).
Proof.
  intros Hm Hk w. rewrite bind_run.
  destruct (Hm w) as [t1 [Hl1 Hq1]].
  destruct (Hk (fst (m w)) (snd (m w))) as [t2 [Hl2 Hq2]].
  exists (t1 ++ t2). split.
  - rewrite Hl2, Hl1, app_assoc. reflexivity.
  - apply Forall_app. auto.
Qed.

Lemma preserves_ret {A : Type} (P : hvm_device -> Prop) (a : A) :
  preserves P (ret a).
Proof. intros w Hw. exact Hw. Qed.

Lemma preserves_get (P : hvm_device -> Prop) : preserves P get_hvm.
Proof. intros w Hw. exact Hw. Qed.

Lemma preserves_peek {A : Type} (P : hvm_device -> Prop)
    (oracle : trace -> A) :
  preserves P (peek oracle).
Proof. intros w Hw. exact Hw. Qed.

Lemma preserves_call {A : Type} (P : hvm_device -> Prop)
    (oracle : trace -> A) (ev : A -> event) :
  preserves P (call oracle ev).
Proof. intros w Hw. exact Hw. Qed.

Lemma preserves_modify (P : hvm_device -> Prop)
    (f : hvm_device -> hvm_device) :
  (forall d, P d -> P (f d)) -> preserves P (modify_hvm f).
Proof. intros Hf w Hw. cbn. auto. Qed.

Lemma preserves_bind {A B : Type} (P : hvm_device -> Prop) (m : M A)
    (k : A -> M B) :
  preserves P m -> (forall a, preserves P (k a)) -> preserves P (bind m k).
Proof. intros Hm Hk w Hw. rewrite bind_run. apply Hk, Hm, Hw. Qed.

Lemma preserves_unchanged {A : Type} (P : hvm_device -> Prop) (m : M A) :
  (forall w, hvm (snd (m w)) = hvm w) -> preserves P m.
Proof. intros Hm w Hw. rewrite Hm. exact Hw. Qed.

(** Straight-line code is handled by walking over its binds and
    branches. *)
Ltac frame_branch :=
  match goal with
  | |- emits _ (if ?c then _ else _) => destruct c
  | |- emits _ (match ?r with RC_OK => _ | RC_ERR _ => _ end) => destruct r
  | |- emits _ (match ?r with Some _ => _ | None => _ end) => destruct r
  | |- preserves _ (if ?c then _ else _) => destruct c
  | |- preserves _ (match ?r with RC_OK => _ | RC_ERR _ => _ end) =>
      destruct r
  | |- preserves _ (match ?r with Some _ => _ | None => _ end) => destruct r
  end.

Create HintDb frame.

Ltac frame :=
  repeat first
    [ solve [auto 1 with frame nocore]
    | apply emits_ret | apply emits_get | apply emits_modify
    | apply emits_peek
    | apply emits_call; intros; exact I
    | apply preserves_ret | apply preserves_get | apply preserves_peek
    | apply preserves_call
    | apply preserves_modify; intros ? ?; assumption
    | assumption
    | apply emits_bind; [ | intros ? ]
    | apply preserves_bind; [ | intros ? ]
    | frame_branch
    | progress cbv zeta ].

(** *** The events of each component *)

Lemma emits_hvm_cpuid_scan (H : headers) (E : env) :
  forall (fuel : nat) (base : Z),
    emits component_event (hvm_cpuid_scan H E fuel base).
Proof.
  induction fuel as [|fuel IH]; intros base; cbn [hvm_cpuid_scan]; frame.
Qed.
#[local] Hint Resolve emits_hvm_cpuid_scan : frame.

Lemma emits_hvm_ioremap_add (H : headers) (E : env) (space pages phys : Z) :
  forall (fuel : nat) (i : Z),
    emits component_event (hvm_ioremap_add H E fuel space pages phys i).
Proof.
  induction fuel as [|fuel IH]; intros i; cbn [hvm_ioremap_add]; frame.
Qed.
#[local] Hint Resolve emits_hvm_ioremap_add : frame.

Lemma emits_hvm_ioremap_undo (H : headers) (E : env) (phys : Z) :
  forall (fuel : nat) (i : Z) (add : xen_add_to_physmap)
         (remove : xen_remove_from_physmap),
    emits component_event (hvm_ioremap_undo H E fuel phys i add remove).
Proof.
  induction fuel as [|fuel IH]; intros i add remove;
    cbn [hvm_ioremap_undo]; frame.
Qed.
#[local] Hint Resolve emits_hvm_ioremap_undo : frame.

Lemma emits_hvm_iounmap_remove (H : headers) (E : env) (pages phys : Z) :
  forall (fuel : nat) (i : Z),
    emits component_event (hvm_iounmap_remove H E fuel pages phys i).
Proof.
  induction fuel as [|fuel IH]; intros i; cbn [hvm_iounmap_remove]; frame.
Qed.
#[local] Hint Resolve emits_hvm_iounmap_remove : frame.

Lemma emits_hvm_ioremap (H : headers) (E : env) (space pages : Z) :
  emits component_event (hvm_ioremap H E space pages).
Proof. unfold hvm_ioremap. frame. Qed.
#[local] Hint Resolve emits_hvm_ioremap : frame.

Lemma emits_hvm_iounmap (H : headers) (E : env) (p pages : Z) :
  emits component_event (hvm_iounmap H E p pages).
Proof. unfold hvm_iounmap. frame. Qed.
#[local] Hint Resolve emits_hvm_iounmap : frame.

Lemma emits_hvm_cpuid_base (H : headers) (E : env) :
  emits component_event (hvm_cpuid_base H E).
Proof. apply emits_hvm_cpuid_scan. Qed.
#[local] Hint Resolve emits_hvm_cpuid_base : frame.

Lemma emits_hvm_map_hypercall (H : headers) (E : env) :
  emits component_event (hvm_map_hypercall H E).
Proof. unfold hvm_map_hypercall. frame. Qed.
#[local] Hint Resolve emits_hvm_map_hypercall : frame.

Lemma emits_hvm_map_shared_info (H : headers) (E : env) :
  emits component_event (hvm_map_shared_info H E).
Proof. unfold hvm_map_shared_info. frame. Qed.
#[local] Hint Resolve emits_hvm_map_shared_info : frame.

Lemma emits_hvm_map_grant (H : headers) (E : env) :
  emits component_event (hvm_map_grant H E).
Proof. unfold hvm_map_grant. frame. Qed.
#[local] Hint Resolve emits_hvm_map_grant : frame.

Lemma emits_hvm_map_xenstore (H : headers) (E : env) :
  emits component_event (hvm_map_xenstore H E).
Proof. unfold hvm_map_xenstore. frame. Qed.
#[local] Hint Resolve emits_hvm_map_xenstore : frame.

Lemma emits_hvm_unmap_hypercall :
  emits component_event hvm_unmap_hypercall.
Proof. unfold hvm_unmap_hypercall. frame. Qed.
#[local] Hint Resolve emits_hvm_unmap_hypercall : frame.

Lemma emits_hvm_unmap_shared_info (H : headers) (E : env) :
  emits component_event (hvm_unmap_shared_info H E).
Proof. unfold hvm_unmap_shared_info. frame. Qed.
#[local] Hint Resolve emits_hvm_unmap_shared_info : frame.

Lemma emits_hvm_unmap_grant (H : headers) (E : env) :
  emits component_event (hvm_unmap_grant H E).
Proof. unfold hvm_unmap_grant. frame. Qed.
#[local] Hint Resolve emits_hvm_unmap_grant : frame.

Lemma emits_hvm_unmap_xenstore :
  emits component_event hvm_unmap_xenstore.
Proof. unfold hvm_unmap_xenstore. frame. Qed.
#[local] Hint Resolve emits_hvm_unmap_xenstore : frame.

(** ** Bookkeeping of the probe *)

Lemma hvm_probe_init_run (H : headers) (E : env) (w : world) :
  zalloc E (log w) = true ->
  hvm_probe_init H E w =
    (true,
     {| hvm := set_mmio_len (sz H (pci_bar_size E (HVM_MMIO_BAR H)))
                 (set_mmio (sz H (pci_bar_start E (HVM_MMIO_BAR H)))
                           hvm_zero);
        log := log w ++
               [ EvZalloc true;
                 EvPciBarStart (HVM_MMIO_BAR H)
                               (pci_bar_start E (HVM_MMIO_BAR H));
                 EvPciBarSize (HVM_MMIO_BAR H)
                              (pci_bar_size E (HVM_MMIO_BAR H));
                 EvAdjustPciDevice ] |}).
Proof.
  intros Hz. unfold hvm_probe_init. run. rewrite Hz. cbn [negb hvm log].
  rewrite <- !app_assoc. reflexivity.
Qed.

Lemma emits_run_all (Q : event -> Prop) (l : list (M unit)) :
  Forall (emits Q) l -> emits Q (run_all l).
Proof.
  induction 1 as [|a l Ha Hl IH]; cbn [run_all].
  - apply emits_ret.
  - apply emits_bind; [exact Ha | intros _; exact IH].
Qed.

(** The undo-stack orchestrator never runs the release of its last
    stage. *)
Lemma emits_attach_with_undo (Q : event -> Prop) :
  forall (todo : list stage) (undo : list (M unit)),
    Forall (fun s => emits Q (acquire s)) todo ->
    Forall (fun s => emits Q (release s)) (removelast todo) ->
    Forall (emits Q) undo ->
    emits Q (attach_with_undo todo undo).
Proof.
  induction todo as [|s rest IH]; intros undo Hacq Hrel Hundo;
    cbn [attach_with_undo].
  - apply emits_ret.
  - inversion Hacq as [|? ? Hs Hrest]; subst.
    apply emits_bind; [exact Hs|]. intros [|e].
    + destruct rest as [|s' rest'].
      * cbn [attach_with_undo]. apply emits_ret.
      * cbn [removelast] in Hrel.
        inversion Hrel as [|? ? Hrs Hrrest]; subst.
        apply IH; [exact Hrest | exact Hrrest | constructor; assumption].
    + apply emits_bind; [apply emits_run_all; exact Hundo|].
      intros _. apply emits_ret.
Qed.

Lemma emits_hvm_stages (H : headers) (E : env) :
  emits component_event (attach_with_undo (hvm_stages H E) []).
Proof.
  apply emits_attach_with_undo; unfold hvm_stages;
    cbn [removelast]; repeat apply Forall_cons; try apply Forall_nil;
    cbn [acquire release]; frame.
Qed.

(** X7.  Once the structure is allocated, [hvm_probe] ends with
    [pci_set_drvdata] exactly when it returns 0 and with [free ( hvm )]
    exactly when it returns an error.  Between the set-up of the
    structure and that last step the structure is neither registered nor
    freed, nothing is allocated with [zalloc], and [xenbus_remove] is
    never called. *)
Theorem hvm_probe_bookkeeping (H : headers) (E : env) (w : world) :
  zalloc E (log w) = true ->
  exists t : trace,
    Forall component_event t /\
    log (snd (hvm_probe H E w)) =
      log w ++
      [ EvZalloc true;
        EvPciBarStart (HVM_MMIO_BAR H) (pci_bar_start E (HVM_MMIO_BAR H));
        EvPciBarSize (HVM_MMIO_BAR H) (pci_bar_size E (HVM_MMIO_BAR H));
        EvAdjustPciDevice ] ++
      t ++
      [ match fst (hvm_probe H E w) with
        | RC_OK => EvPciSetDrvdata
        | RC_ERR _ => EvFree
        end ].
Proof.
  intros Hz. rewrite hvm_probe_undo_stack. unfold probe_with_undo.
  rewrite bind_run, (hvm_probe_init_run H E w Hz). cbn [fst snd negb].
  rewrite bind_run.
  match goal with
  | |- context [attach_with_undo (hvm_stages H E) [] ?w0] =>
      destruct (emits_hvm_stages H E w0) as [t [Hlog Hq]];
      destruct (attach_with_undo (hvm_stages H E) [] w0) as [[|e] w1]
  end; cbn [fst snd log] in *; unfold free_hvm; run;
    exists t; (split; [exact Hq|]); rewrite Hlog, <- !app_assoc;
    reflexivity.
Qed.

(** A probe that succeeds and a probe that fails at the XenStore. *)
Lemma hvm_probe_bookkeeping_witness :
  (exists t : trace,
     Forall component_event t /\
     log (snd (hvm_probe ipxe_headers good_env world0)) =
       [ EvZalloc true; EvPciBarStart 0x14 0xf2000000;
         EvPciBarSize 0x14 0x1000000; EvAdjustPciDevice ] ++
       t ++ [EvPciSetDrvdata])
  /\
  (exists t : trace,
     Forall component_event t /\
     log (snd (hvm_probe ipxe_headers dead_xenstore_env world0)) =
       [ EvZalloc true; EvPciBarStart 0x14 0xf2000000;
         EvPciBarSize 0x14 0x1000000; EvAdjustPciDevice ] ++
       t ++ [EvFree]).
Proof.
  split.
  - exact (hvm_probe_bookkeeping ipxe_headers good_env world0 eq_refl).
  - exact (hvm_probe_bookkeeping ipxe_headers dead_xenstore_env world0
             eq_refl).
Defined.

(** ** The window during a probe *)

Lemma preserves_hvm_ioremap (H : headers) (E : env) (space pages : Z)
    (P : hvm_device -> Prop) :
  (forall d v, P d -> v <= mmio_len d -> P (set_mmio_offset v d)) ->
  preserves P (hvm_ioremap H E space pages).
Proof.
  intros Hset w Hw.
  destruct (hvm_ioremap_cases H E space pages w) as [[_ Hd]|[_ [Hle Hd]]];
    rewrite Hd; [exact Hw | apply Hset; assumption].
Qed.

Lemma window_set_mmio_offset (base len : Z) (d : hvm_device) (v : Z) :
  window_is base len d -> v <= mmio_len d ->
  window_is base len (set_mmio_offset v d).
Proof. intros [Hb [Hl Ho]] Hv. repeat split; assumption. Qed.

Lemma window_hvm_ioremap (H : headers) (E : env) (space pages base len : Z) :
  preserves (window_is base len) (hvm_ioremap H E space pages).
Proof. apply preserves_hvm_ioremap, window_set_mmio_offset. Qed.
#[local] Hint Resolve window_hvm_ioremap : frame.

Lemma window_hvm_iounmap (H : headers) (E : env) (p pages base len : Z) :
  preserves (window_is base len) (hvm_iounmap H E p pages).
Proof. apply preserves_unchanged, hvm_iounmap_hvm. Qed.
#[local] Hint Resolve window_hvm_iounmap : frame.

Lemma window_hvm_cpuid_scan (H : headers) (E : env) (base len : Z) :
  forall (fuel : nat) (leaf : Z),
    preserves (window_is base len) (hvm_cpuid_scan H E fuel leaf).
Proof.
  induction fuel as [|fuel IH]; intros leaf; cbn [hvm_cpuid_scan]; frame.
Qed.
#[local] Hint Resolve window_hvm_cpuid_scan : frame.

Lemma preserves_run_all (P : hvm_device -> Prop) (l : list (M unit)) :
  Forall (preserves P) l -> preserves P (run_all l).
Proof.
  induction 1 as [|a l Ha Hl IH]; cbn [run_all].
  - apply preserves_ret.
  - apply preserves_bind; [exact Ha | intros _; exact IH].
Qed.

Lemma preserves_attach_with_undo (P : hvm_device -> Prop) :
  forall (todo : list stage) (undo : list (M unit)),
    Forall (fun s => preserves P (acquire s) /\ preserves P (release s))
           todo ->
    Forall (preserves P) undo ->
    preserves P (attach_with_undo todo undo).
Proof.
  induction todo as [|s rest IH]; intros undo Hst Hundo;
    cbn [attach_with_undo].
  - apply preserves_ret.
  - inversion Hst as [|? ? [Hacq Hrel] Hrest]; subst.
    apply preserves_bind; [exact Hacq|]. intros [|e].
    + apply IH; [exact Hrest | constructor; assumption].
    + apply preserves_bind; [apply preserves_run_all; exact Hundo|].
      intros _. apply preserves_ret.
Qed.

Lemma window_hvm_stages (H : headers) (E : env) (base len : Z) :
  Forall (fun s => preserves (window_is base len) (acquire s) /\
                   preserves (window_is base len) (release s))
         (hvm_stages H E).
Proof.
  unfold hvm_stages.
  repeat (apply Forall_cons; [split|]); try apply Forall_nil;
    cbn [acquire release];
    unfold hvm_cpuid_base, hvm_map_hypercall, hvm_map_shared_info,
      hvm_map_grant, hvm_map_xenstore, hvm_unmap_hypercall,
      hvm_unmap_shared_info, hvm_unmap_grant, hvm_unmap_xenstore,
      xenbus_remove;
    frame.
Qed.

(** X8.  The MMIO window is fixed once and respected all along.  Every
    stage of the attachment and every release keeps the base and the
    length of the window and keeps the bump offset at or below the
    length; after [hvm_probe] has allocated the structure, whether it then
    succeeds or fails at any stage, the window of the structure is the
    PCI BAR it read at the start and the offset lies within it. *)
Theorem hvm_probe_window (H : headers) (E : env) :
  (forall base len : Z,
     Forall (fun s => preserves (window_is base len) (acquire s) /\
                      preserves (window_is base len) (release s))
            (hvm_stages H E))
  /\
  (forall w : world,
     zalloc E (log w) = true ->
     window_is (sz H (pci_bar_start E (HVM_MMIO_BAR H)))
               (sz H (pci_bar_size E (HVM_MMIO_BAR H)))
               (hvm (snd (hvm_probe H E w)))).
Proof.
  split; [intros base len; apply window_hvm_stages|].
  intros w Hz. rewrite hvm_probe_undo_stack. unfold probe_with_undo.
  rewrite bind_run, (hvm_probe_init_run H E w Hz). cbn [fst snd negb].
  set (base := sz H (pci_bar_start E (HVM_MMIO_BAR H))).
  set (len := sz H (pci_bar_size E (HVM_MMIO_BAR H))).
  set (w0 := {| hvm := set_mmio_len len (set_mmio base hvm_zero);
                log := _ |}).
  assert (Hw0 : window_is base len (hvm w0)).
  { repeat split. cbn.
    apply (ulong_range (abi H) (pci_bar_size E (HVM_MMIO_BAR H))). }
  revert Hw0. generalize w0. fold (preserves (window_is base len)
    (r <- attach_with_undo (hvm_stages H E) [] ;;
     match r with
     | RC_OK => call (fun _ => tt) (fun _ => EvPciSetDrvdata) ;;; ret RC_OK
     | RC_ERR e => free_hvm ;;; ret (RC_ERR e)
     end)).
  apply preserves_bind.
  - apply preserves_attach_with_undo; [apply window_hvm_stages | constructor].
  - intros [|e]; unfold free_hvm; frame.
Qed.

(** On a Xen guest the window is the 16 MiB BAR at 0xf2000000. *)
Lemma hvm_probe_window_witness :
  window_is 0xf2000000 0x1000000
            (hvm (snd (hvm_probe ipxe_headers good_env world0))).
Proof.
  exact (proj2 (hvm_probe_window ipxe_headers good_env) world0 eq_refl).
Defined.

(** ** What a successful probe hands over *)

#[local] Hint Extern 1 (preserves _ (hvm_ioremap _ _ _ _)) =>
  apply preserves_hvm_ioremap; intros ? ? ? ?; assumption : frame.
#[local] Hint Extern 1 (preserves _ (hvm_iounmap _ _ _ _)) =>
  apply preserves_unchanged, hvm_iounmap_hvm : frame.

Lemma attach_with_undo_ok (l : list stage) :
  forall (undo : list (M unit)) (w w1 : world),
    attach_with_undo l undo w = (RC_OK, w1) ->
    acquire_all l w = Some w1.
Proof.
  induction l as [|s l IH]; intros undo w w1; cbn [attach_with_undo].
  - unfold ret. intros Heq. injection Heq as Heq. subst w1. reflexivity.
  - unfold bind at 1. cbn [acquire_all].
    destruct (acquire s w) as [[|e] w'].
    + apply IH.
    + unfold bind, ret. destruct (run_all undo w'). discriminate.
Qed.

Lemma hvm_map_hypercall_ok (H : headers) (E : env) (w : world) :
  fst (hvm_map_hypercall H E w) = RC_OK ->
  xen_hypercall (hvm (snd (hvm_map_hypercall H E w))) <> NULL.
Proof.
  unfold hvm_map_hypercall. run.
  match goal with |- context [malloc_dma E ?h ?l ?a] =>
    destruct (malloc_dma E h l a =? NULL) eqn:Hp
  end; [cbn; discriminate|].
  apply Z.eqb_neq in Hp.
  match goal with |- context [negb ?c] => destruct c end;
    cbn [negb fst snd hvm]; intros; [exact Hp | discriminate].
Qed.

Lemma hvm_map_shared_info_ok (H : headers) (E : env) (w : world) :
  fst (hvm_map_shared_info H E w) = RC_OK ->
  xen_shared (hvm (snd (hvm_map_shared_info H E w))) <> NULL.
Proof.
  unfold hvm_map_shared_info. rewrite bind_run.
  destruct (hvm_ioremap H E (XENMAPSPACE_shared_info H) 1 w) as [p w1].
  run. destruct (p =? NULL) eqn:Hp; cbn [fst snd hvm]; [discriminate|].
  intros _. apply Z.eqb_neq in Hp. exact Hp.
Qed.

Lemma hvm_map_xenstore_ok (H : headers) (E : env) (w : world) :
  fst (hvm_map_xenstore H E w) = RC_OK ->
  xen_store_intf (hvm (snd (hvm_map_xenstore H E w))) <> NULL.
Proof.
  unfold hvm_map_xenstore. run.
  match goal with |- context [negb ?c] => destruct c end;
    [|cbn; discriminate]. cbn [negb fst snd hvm log].
  match goal with |- context [negb ?c] => destruct c end;
    [|cbn; discriminate]. cbn [negb fst snd hvm log].
  match goal with |- context [ioremap E ?h ?a ?l] =>
    destruct (ioremap E h a l =? NULL) eqn:Hp
  end; [cbn; discriminate|].
  apply Z.eqb_neq in Hp. cbn [fst snd hvm log].
  match goal with |- context [xenstore_read E ?h ?k] =>
    destruct (xenstore_read E h k)
  end; cbn [fst snd hvm]; intros; [exact Hp | discriminate].
Qed.

Lemma hypercall_kept (H : headers) (E : env) :
  preserves (fun d => xen_hypercall d <> NULL) (hvm_map_shared_info H E) /\
  preserves (fun d => xen_hypercall d <> NULL) (hvm_map_grant H E) /\
  preserves (fun d => xen_hypercall d <> NULL) (hvm_map_xenstore H E).
Proof.
  unfold hvm_map_shared_info, hvm_map_grant, hvm_map_xenstore.
  repeat split; frame.
Qed.

Lemma shared_kept (H : headers) (E : env) :
  preserves (fun d => xen_shared d <> NULL) (hvm_map_grant H E) /\
  preserves (fun d => xen_shared d <> NULL) (hvm_map_xenstore H E).
Proof. unfold hvm_map_grant, hvm_map_xenstore. repeat split; frame. Qed.

Lemma grant_table_kept (H : headers) (E : env) :
  preserves (fun d => xen_grant_table d <> NULL) (hvm_map_xenstore H E).
Proof. unfold hvm_map_xenstore. frame. Qed.

(** X9.  When [hvm_probe] returns 0, the structure it has registered
    holds all four resources: the hypercall pages, the shared-info page,
    the grant table and the XenStore page are non-NULL. *)
Theorem hvm_probe_success_resources (H : headers) (E : env) (w : world) :
  fst (hvm_probe H E w) = RC_OK ->
  let d := hvm (snd (hvm_probe H E w)) in
  xen_hypercall d <> NULL /\
  xen_shared d <> NULL /\
  xen_grant_table d <> NULL /\
  xen_store_intf d <> NULL.
Proof.
  cbv zeta. rewrite hvm_probe_undo_stack. unfold probe_with_undo.
  rewrite bind_run.
  destruct (zalloc E (log w)) eqn:Hz.
  2:{ unfold hvm_probe_init. run. rewrite Hz. cbn. discriminate. }
  rewrite (hvm_probe_init_run H E w Hz). cbn [fst snd negb].
  rewrite bind_run.
  match goal with
  | |- context [attach_with_undo (hvm_stages H E) [] ?w0] =>
      set (w0' := w0);
      destruct (attach_with_undo (hvm_stages H E) [] w0') as [[|e] w1]
        eqn:Hatt
  end; cbn [fst snd].
  2:{ unfold free_hvm. run. discriminate. }
  intros _. run.
  apply attach_with_undo_ok in Hatt.
  cbn [acquire_all hvm_stages acquire] in Hatt.
  destruct (hvm_cpuid_base H E w0') as [[|e1] wa]; [|discriminate].
  pose proof (hvm_map_hypercall_ok H E wa) as Hhc.
  destruct (hvm_map_hypercall H E wa) as [[|e2] wb]; [|discriminate].
  pose proof (hvm_map_shared_info_ok H E wb) as Hsh.
  pose proof (proj1 (hypercall_kept H E) wb) as Hk1.
  destruct (hvm_map_shared_info H E wb) as [[|e3] wc]; [|discriminate].
  pose proof (hvm_map_grant_stores H E wc) as Hgr.
  pose proof (proj1 (proj2 (hypercall_kept H E)) wc) as Hk2.
  pose proof (proj1 (shared_kept H E) wc) as Hk3.
  destruct (hvm_map_grant H E wc) as [[|e4] wd]; [|discriminate].
  pose proof (hvm_map_xenstore_ok H E wd) as Hxs.
  pose proof (proj2 (proj2 (hypercall_kept H E)) wd) as Hk4.
  pose proof (proj2 (shared_kept H E) wd) as Hk5.
  pose proof (grant_table_kept H E wd) as Hk6.
  destruct (hvm_map_xenstore H E wd) as [[|e5] we]; [|discriminate].
  revert Hatt. unfold call. cbn [fst snd hvm log].
  destruct (xenbus_probe E (log we)); [|discriminate].
  intros Hatt. injection Hatt as <-.
  cbn [fst snd hvm] in *.
  specialize (Hgr eq_refl). cbv zeta in Hgr. destruct Hgr as [Hgr _].
  repeat split; auto.
Qed.

(** The probe on an accepting hypervisor. *)
Lemma hvm_probe_success_resources_witness :
  let d := hvm (snd (hvm_probe ipxe_headers good_env world0)) in
  xen_hypercall d <> NULL /\ xen_shared d <> NULL /\
  xen_grant_table d <> NULL /\ xen_store_intf d <> NULL.
Proof.
  apply (hvm_probe_success_resources ipxe_headers good_env world0).
  vm_compute. reflexivity.
Defined.

(** ** Consecutive allocations *)

(** X10.  The allocator hands out the window front to back without
    overlap.  For a window that lies within the address space and a first
    request that fits into what is left of it, two calls of
    [hvm_ioremap] that both succeed map adjacent ranges: the first maps
    [pages1 * PAGE_SIZE] bytes at [mmio + mmio_offset], the second starts
    exactly where the first one ends. *)
Theorem hvm_ioremap_adjacent (H : headers) (E : env)
    (space1 pages1 space2 pages2 : Z) (w : world) :
  let d := hvm w in
  let w1 := snd (hvm_ioremap H E space1 pages1 w) in
  0 <= mmio d -> 0 <= mmio_offset d ->
  0 <= pages1 -> 0 < PAGE_SIZE H ->
  pages1 * PAGE_SIZE H < 2 ^ 32 ->
  mmio_offset d + pages1 * PAGE_SIZE H <= mmio_len d ->
  mmio d + mmio_len d < 2 ^ long_bits (abi H) ->
  fst (hvm_ioremap H E space1 pages1 w) <> NULL ->
  fst (hvm_ioremap H E space2 pages2 w1) <> NULL ->
  exists (p1 p2 : Z) (t1 t2 : trace),
    log w1 =
      log w ++
      EvIoremap (mmio d + mmio_offset d) (pages1 * PAGE_SIZE H) p1 :: t1 /\
    log (snd (hvm_ioremap H E space2 pages2 w1)) =
      log w1 ++
      EvIoremap (mmio d + mmio_offset d + pages1 * PAGE_SIZE H)
                (ioremap_len H pages2) p2 :: t2.
Proof.
  cbv zeta. intros Hm Ho Hp Hps Hmul Hfit Hwin Hok1 Hok2.
  assert (Hlong : 2 ^ 32 <= 2 ^ long_bits (abi H))
    by (destruct (abi H); simpl long_bits; lia).
  assert (Hpg : pages1 < 2 ^ 32) by nia.
  assert (Hlen : ioremap_len H pages1 = pages1 * PAGE_SIZE H).
  { unfold ioremap_len, sz. rewrite (u32_small pages1) by lia.
    rewrite u32_small by nia. apply ulong_small. nia. }
  pose proof (hvm_ioremap_success_run H E space2 pages2 _ Hok2) as Hrun2.
  cbv zeta in Hrun2. revert Hrun2.
  rewrite (hvm_ioremap_success_run H E space1 pages1 w Hok1).
  cbn [snd hvm log set_mmio_offset mmio mmio_offset]. rewrite Hlen.
  unfold sz.
  rewrite (ulong_small _ (mmio (hvm w) + mmio_offset (hvm w))) by nia.
  rewrite (ulong_small _ (mmio_offset (hvm w) + pages1 * PAGE_SIZE H))
    by nia.
  rewrite (ulong_small _ (mmio (hvm w) +
                          (mmio_offset (hvm w) + pages1 * PAGE_SIZE H)))
    by nia.
  intros Hrun2. rewrite Hrun2. cbn [snd log].
  do 4 eexists. split; [reflexivity|].
  rewrite Z.add_assoc. reflexivity.
Qed.

(** The shared-info page at the start of the window, the grant table
    right behind it. *)
Lemma hvm_ioremap_adjacent_witness :
  exists (p1 p2 : Z) (t1 t2 : trace),
    log (snd (hvm_ioremap ipxe_headers good_env 0 1 (window_world 0))) =
      EvIoremap 0xf2000000 0x1000 p1 :: t1 /\
    log (snd (hvm_ioremap ipxe_headers good_env 1 4
                (snd (hvm_ioremap ipxe_headers good_env 0 1
                                  (window_world 0))))) =
      log (snd (hvm_ioremap ipxe_headers good_env 0 1 (window_world 0))) ++
      EvIoremap 0xf2001000 0x4000 p2 :: t2.
Proof.
  apply (hvm_ioremap_adjacent ipxe_headers good_env 0 1 1 4 (window_world 0));
    vm_compute; congruence.
Defined.

(** ** The XenStore page *)

(** X11.  The XenStore page lives outside the MMIO window.  Neither
    [hvm_map_xenstore] nor [hvm_unmap_xenstore] sends an add-to-physmap or
    remove-from-physmap request, whatever the outcome, and neither moves
    the bump offset; unmapping leaves the whole device structure as it
    was. *)
Theorem hvm_xenstore_outside_window (H : headers) (E : env) :
  emits not_physmap_event (hvm_map_xenstore H E) /\
  emits not_physmap_event hvm_unmap_xenstore /\
  (forall offset : Z,
     preserves (fun d => mmio_offset d = offset) (hvm_map_xenstore H E)) /\
  (forall w : world, hvm (snd (hvm_unmap_xenstore w)) = hvm w).
Proof.
  unfold hvm_map_xenstore, hvm_unmap_xenstore.
  repeat split; try intros offset; frame.
Qed.

(** Mapping the XenStore page leaves the offset at 0x5000. *)
Lemma hvm_xenstore_outside_window_witness :
  mmio_offset
    (hvm (snd (hvm_map_xenstore ipxe_headers good_env
                                (window_world 0x5000)))) = 0x5000.
Proof.
  exact (proj1 (proj2 (proj2 (hvm_xenstore_outside_window ipxe_headers
                                good_env)))
               0x5000 (window_world 0x5000) eq_refl).
Defined.

(** ** The locator, read backwards *)

Lemma In_leaves_from (H : headers) (base : Z) (count : nat) (x : Z) :
  In x (leaves_from H base count) <->
  exists j : nat, (j < count)%nat /\ x = base + Z.of_nat j * HVM_CPUID_STEP H.
Proof.
  unfold leaves_from. rewrite in_map_iff. split.
  - intros [j [Hx Hj]]. apply in_seq in Hj. exists j. split; [lia | auto].
  - intros [j [Hj Hx]]. exists j. split; [auto | apply in_seq; lia].
Qed.

(** X12.  [hvm_cpuid_base] is exact.  With range constants that keep the
    loop counter from wrapping, it returns 0 if and only if some leaf of
    the scanned range carries the signature; the base it then records
    lies between the minimum and the maximum, a whole number of strides
    above the minimum, and carries the signature.  Its only other answer
    is [-ENODEV], and then the device structure is as it was. *)
Theorem hvm_cpuid_base_exact (H : headers) (E : env) (w : world) :
  cpuid_range_ok H ->
  (fst (hvm_cpuid_base H E w) = RC_OK <->
   exists leaf : Z,
     In leaf (scanned_leaves H) /\ magic_match H (cpuid E leaf) = true)
  /\
  (fst (hvm_cpuid_base H E w) = RC_OK ->
   let b := cpuid_base (hvm (snd (hvm_cpuid_base H E w))) in
   HVM_CPUID_MIN H <= b <= HVM_CPUID_MAX H /\
   (HVM_CPUID_STEP H | b - HVM_CPUID_MIN H) /\
   magic_match H (cpuid E b) = true)
  /\
  (fst (hvm_cpuid_base H E w) <> RC_OK ->
   fst (hvm_cpuid_base H E w) = RC_ERR ENODEV /\
   hvm (snd (hvm_cpuid_base H E w)) = hvm w).
Proof.
  intros Hok. pose proof Hok as [[Hmin Hminmax] [Hstep Hmax]].
  rewrite (hvm_cpuid_base_spec H E w Hok).
  destruct (find (fun leaf => magic_match H (cpuid E leaf))
                 (scanned_leaves H)) as [b|] eqn:Hfind; cbn [fst snd hvm].
  - apply find_some in Hfind. destruct Hfind as [Hin Hmatch].
    split; [|split].
    + split; [intros _; exists b; auto | reflexivity].
    + intros _. cbv zeta. cbn [set_cpuid_base cpuid_base].
      unfold scanned_leaves in Hin. apply In_leaves_from in Hin.
      destruct Hin as [j [Hj Hb]].
      pose proof (Z.mul_div_le (HVM_CPUID_MAX H - HVM_CPUID_MIN H)
                               (HVM_CPUID_STEP H) Hstep) as Hlo.
      assert (Hq : 0 <= (HVM_CPUID_MAX H - HVM_CPUID_MIN H)
                        / HVM_CPUID_STEP H) by (apply Z.div_pos; lia).
      repeat split.
      * nia.
      * nia.
      * exists (Z.of_nat j). lia.
      * exact Hmatch.
    + intros Hne. contradiction.
  - split; [|split].
    + split; [discriminate|].
      intros [leaf [Hin Hmatch]].
      pose proof (find_none _ _ Hfind leaf Hin) as Hno. cbv beta in Hno.
      congruence.
    + discriminate.
    + intros _. split; reflexivity.
Qed.

(** A Xen guest is found at leaf 0x40000000. *)
Lemma hvm_cpuid_base_exact_witness :
  (exists leaf : Z,
     In leaf (scanned_leaves ipxe_headers) /\
     magic_match ipxe_headers (cpuid good_env leaf) = true)
  /\
  fst (hvm_cpuid_base ipxe_headers bare_env world0) = RC_ERR ENODEV.
Proof.
  assert (Hok : cpuid_range_ok ipxe_headers)
    by (unfold cpuid_range_ok; cbn; lia).
  split.
  - apply (proj1 (proj1 (hvm_cpuid_base_exact ipxe_headers good_env world0
                           Hok))).
    vm_compute. reflexivity.
  - apply (proj2 (proj2 (hvm_cpuid_base_exact ipxe_headers bare_env world0
                           Hok))).
    vm_compute. discriminate.
Defined.

(** ** Edge cases and round trips *)

Lemma set_mmio_offset_same (d : hvm_device) :
  set_mmio_offset (mmio_offset d) d = d.
Proof. destruct d; reflexivity. Qed.

(** X13.  An empty request.  When the page count is 0 (as an
    [unsigned int]) and the offset lies within the window, [hvm_ioremap]
    still calls [ioremap], on a range of length 0 at the current offset,
    and returns whatever it answers; no hypercall is made and the device
    structure, offset included, is as it was. *)
Theorem hvm_ioremap_zero_pages (H : headers) (E : env) (space pages : Z)
    (w : world) :
  u32 pages = 0 ->
  0 <= mmio_offset (hvm w) < 2 ^ long_bits (abi H) ->
  mmio_offset (hvm w) <= mmio_len (hvm w) ->
  let start := sz H (mmio (hvm w) + mmio_offset (hvm w)) in
  hvm_ioremap H E space pages w =
    (ioremap E (log w) start 0,
     {| hvm := hvm w;
        log := log w ++ [EvIoremap start 0 (ioremap E (log w) start 0)] |}).
Proof.
  intros Hz Ho Hle. cbv zeta. unfold hvm_ioremap. run. rewrite Hz.
  cbn [Z.mul]. change (u32 0) with 0. unfold sz.
  change (ulong (abi H) 0) with 0. rewrite Z.add_0_r.
  rewrite (ulong_small _ (mmio_offset (hvm w))) by exact Ho.
  rewrite Z.gtb_ltb. apply Z.ltb_ge in Hle. rewrite Hle.
  set (p := ioremap E (log w) _ 0).
  destruct (p =? NULL) eqn:Hp.
  - apply Z.eqb_eq in Hp. rewrite Hp. reflexivity.
  - cbn [Z.to_nat hvm_ioremap_add Z.ltb Z.compare ret fst snd hvm log].
    rewrite set_mmio_offset_same. reflexivity.
Qed.

(** A grant table of no frames at offset 0x1000. *)
Lemma hvm_ioremap_zero_pages_witness :
  hvm_ioremap ipxe_headers good_env 1 0 (window_world 0x1000) =
    (0xf2001000,
     {| hvm := hvm (window_world 0x1000);
        log := [EvIoremap 0xf2001000 0 0xf2001000] |}).
Proof.
  apply (hvm_ioremap_zero_pages ipxe_headers good_env 1 0
           (window_world 0x1000)).
  - reflexivity.
  - vm_compute. split; congruence.
  - vm_compute. congruence.
Defined.

(** X14.  The hypercall pages are freed as they were allocated: after
    [hvm_map_hypercall], with whatever outcome, [hvm_unmap_hypercall] run
    on the resulting device structure hands [free_dma] the pointer that
    [malloc_dma] returned together with the length that had been asked of
    it. *)
Theorem hvm_unmap_hypercall_frees_allocation (H : headers) (E : env)
    (w : world) (later : trace) :
  let w1 := snd (hvm_map_hypercall H E w) in
  exists len p : Z,
    In (EvMallocDma len (PAGE_SIZE H) p) (since w w1) /\
    hvm_unmap_hypercall {| hvm := hvm w1; log := later |} =
      (tt, {| hvm := hvm w1; log := later ++ [EvFreeDma p len] |}).
Proof.
  cbv zeta. unfold hvm_map_hypercall, hvm_unmap_hypercall. run.
  set (leaf := u32 (cpuid_base (hvm w) + HVM_CPUID_PAGES H)).
  set (len := sz H (u32 (u32 (eax (cpuid E leaf)) * PAGE_SIZE H))).
  set (p := malloc_dma E (log w ++ [EvCpuid leaf (cpuid E leaf)]) len
                       (PAGE_SIZE H)).
  exists len, p.
  destruct (p =? NULL).
  - cbn [fst snd hvm log]. rewrite <- app_assoc, since_app.
    split; [cbn; auto | reflexivity].
  - match goal with |- context [negb ?c] => destruct c end;
      cbn [negb fst snd hvm log]; rewrite <- !app_assoc, since_app;
      (split; [cbn; auto | reflexivity]).
Qed.

(** The run of a successful [hvm_map_grant], event by event. *)
Lemma hvm_map_grant_run (H : headers) (E : env) (w : world) :
  fst (hvm_map_grant H E w) = RC_OK ->
  let size := xengrant_query_size E (log w) (DOMID_SELF H) in
  let h1 := log w ++ [EvQuerySize (DOMID_SELF H) 0 (snd size)] in
  let version := xengrant_set_version E h1 2 in
  let h2 := h1 ++ [EvSetVersion 2 0 (snd version)] in
  let nr := u32 (snd size) in
  let start := sz H (mmio (hvm w) + mmio_offset (hvm w)) in
  let len := ioremap_len H nr in
  let p := ioremap E h2 start len in
  fst size = 0 /\ fst version = 0 /\ u32 (snd version) = 2 /\ p <> NULL /\
  snd (hvm_map_grant H E w) =
    {| hvm := set_xen_grant_count (u32 (len / sizeof_grant_entry H))
                (set_xen_grant_table p
                   (set_mmio_offset (sz H (mmio_offset (hvm w) + len))
                                    (hvm w)));
       log := h2 ++
              EvIoremap start len p
                :: add_requests H (XENMAPSPACE_grant_table H)
                                (virt_to_phys E p) 0 (Z.to_nat nr) |}.
Proof.
  cbv zeta. unfold hvm_map_grant. run.
  destruct (fst (xengrant_query_size E (log w) (DOMID_SELF H)) =? 0) eqn:Hq;
    cbn [negb]; [|cbn; discriminate].
  apply Z.eqb_eq in Hq. rewrite Hq.
  match goal with |- context [xengrant_set_version E ?h 2] =>
    destruct (fst (xengrant_set_version E h 2) =? 0) eqn:Hs;
      cbn [negb]; [|cbn; discriminate];
    destruct (u32 (snd (xengrant_set_version E h 2)) =? 2) eqn:Hv;
      cbn [negb]; [|cbn; discriminate]
  end.
  apply Z.eqb_eq in Hs. apply Z.eqb_eq in Hv. rewrite Hs.
  cbn [fst snd hvm log].
  match goal with |- context [hvm_ioremap H E ?s ?n ?w0] =>
    pose proof (hvm_ioremap_success_run H E s n w0) as Hrun;
    destruct (hvm_ioremap H E s n w0) as [p w1] eqn:Hio
  end.
  cbn [fst snd hvm log] in *.
  destruct (p =? NULL) eqn:Hp; cbn [fst snd hvm log]; [discriminate|].
  apply Z.eqb_neq in Hp. intros _.
  specialize (Hrun Hp). cbv zeta in Hrun. injection Hrun as Hpeq Hw1.
  unfold ioremap_len in *.
  rewrite !(u32_small (u32 _)) in * by apply u32_range.
  repeat split; try assumption.
  - rewrite <- Hpeq. exact Hp.
  - subst w1. cbn [hvm log]. rewrite <- Hpeq. reflexivity.
Qed.

(** X15.  What a successful [hvm_map_grant] has done: the size query and
    the set-version call both returned status 0, the hypervisor reported
    version 2, and the table was mapped through [hvm_ioremap] with one
    accepted add-to-physmap request per reported frame, frame [i] under
    index [i] of the grant-table space.  The structure then holds the
    mapping and, as entry count, the mapped length divided by the size of
    a grant entry. *)
Theorem hvm_map_grant_success_run (H : headers) (E : env) (w : world) :
  fst (hvm_map_grant H E w) = RC_OK ->
  let size := xengrant_query_size E (log w) (DOMID_SELF H) in
  let h1 := log w ++ [EvQuerySize (DOMID_SELF H) 0 (snd size)] in
  let version := xengrant_set_version E h1 2 in
  let h2 := h1 ++ [EvSetVersion 2 0 (snd version)] in
  let nr := u32 (snd size) in
  let start := sz H (mmio (hvm w) + mmio_offset (hvm w)) in
  let len := ioremap_len H nr in
  let p := ioremap E h2 start len in
  fst size = 0 /\ fst version = 0 /\ u32 (snd version) = 2 /\ p <> NULL /\
  snd (hvm_map_grant H E w) =
    {| hvm := set_xen_grant_count (u32 (len / sizeof_grant_entry H))
                (set_xen_grant_table p
                   (set_mmio_offset (sz H (mmio_offset (hvm w) + len))
                                    (hvm w)));
       log := h2 ++
              EvIoremap start len p
                :: add_requests H (XENMAPSPACE_grant_table H)
                                (virt_to_phys E p) 0 (Z.to_nat nr) |}.
Proof. exact (hvm_map_grant_run H E w). Qed.

(** Four grant frames behind the shared-info page. *)
Lemma hvm_map_grant_success_run_witness :
  log (snd (hvm_map_grant ipxe_headers good_env (window_world 0x1000))) =
    [ EvQuerySize 0x7ff0 0 4; EvSetVersion 2 0 2;
      EvIoremap 0xf2001000 0x4000 0xf2001000 ] ++
    add_requests ipxe_headers 1 0xf2001000 0 4.
Proof.
  destruct (hvm_map_grant_success_run ipxe_headers good_env
              (window_world 0x1000) eq_refl)
    as [_ [_ [_ [_ Hrun]]]].
  rewrite Hrun. reflexivity.
Defined.

(** ** Probe and remove, mapping by mapping *)

Lemma since_log (w w' : world) (t : trace) :
  log w' = log w ++ t -> since w w' = t.
Proof.
  intros Hlog. unfold since. rewrite Hlog, skipn_app, skipn_all, Nat.sub_diag.
  reflexivity.
Qed.

Lemma mapped_ptrs_app (t1 t2 : trace) :
  mapped_ptrs (t1 ++ t2) = mapped_ptrs t1 ++ mapped_ptrs t2.
Proof.
  induction t1 as [|e t1 IH]; [reflexivity|].
  destruct e; cbn [app mapped_ptrs]; rewrite IH; reflexivity.
Qed.

Lemma unmapped_ptrs_app (t1 t2 : trace) :
  unmapped_ptrs (t1 ++ t2) = unmapped_ptrs t1 ++ unmapped_ptrs t2.
Proof.
  induction t1 as [|e t1 IH]; [reflexivity|].
  destruct e; cbn [app unmapped_ptrs]; rewrite IH; reflexivity.
Qed.

Lemma mapped_ptrs_quiet (t : trace) :
  Forall not_ioremap_event t -> mapped_ptrs t = [].
Proof.
  induction 1 as [|e t He Ht IH]; [reflexivity|].
  destruct e; cbn [mapped_ptrs]; try exact IH. contradiction.
Qed.

Lemma mapped_ptrs_add_requests (H : headers) (space phys : Z) (n : nat) :
  forall i : Z, mapped_ptrs (add_requests H space phys i n) = [].
Proof. induction n as [|n IH]; intros i; [reflexivity | apply IH]. Qed.

Lemma unmapped_ptrs_remove_requests (H : headers) (phys : Z)
    (answers : list Z) :
  forall i : Z, unmapped_ptrs (remove_requests H phys i answers) = [].
Proof.
  induction answers as [|x answers IH]; intros i; [reflexivity | apply IH].
Qed.

Lemma quiet_hvm_cpuid_scan (H : headers) (E : env) :
  forall (fuel : nat) (base : Z),
    emits not_ioremap_event (hvm_cpuid_scan H E fuel base).
Proof.
  induction fuel as [|fuel IH]; intros base; cbn [hvm_cpuid_scan]; frame.
Qed.

Lemma quiet_hvm_map_hypercall (H : headers) (E : env) :
  emits not_ioremap_event (hvm_map_hypercall H E).
Proof. unfold hvm_map_hypercall. frame. Qed.

Lemma hvm_map_shared_info_maps (H : headers) (E : env) (w : world) :
  fst (hvm_map_shared_info H E w) = RC_OK ->
  exists t : trace,
    log (snd (hvm_map_shared_info H E w)) = log w ++ t /\
    mapped_ptrs t = [xen_shared (hvm (snd (hvm_map_shared_info H E w)))].
Proof.
  unfold hvm_map_shared_info. rewrite bind_run.
  pose proof (hvm_ioremap_success_run H E (XENMAPSPACE_shared_info H) 1 w)
    as Hrun.
  destruct (hvm_ioremap H E (XENMAPSPACE_shared_info H) 1 w) as [p w1].
  cbn [fst snd] in *. run.
  destruct (p =? NULL) eqn:Hp; cbn [fst snd hvm log]; [discriminate|].
  apply Z.eqb_neq in Hp. intros _.
  specialize (Hrun Hp). cbv zeta in Hrun. injection Hrun as Hpeq Hw1.
  subst w1. cbn [hvm log]. eexists. split.
  - rewrite <- app_assoc. reflexivity.
  - cbn [app mapped_ptrs]. cbn [xen_shared set_xen_shared].
    rewrite <- Hpeq. reflexivity.
Qed.

Lemma hvm_map_grant_maps (H : headers) (E : env) (w : world) :
  fst (hvm_map_grant H E w) = RC_OK ->
  exists t : trace,
    log (snd (hvm_map_grant H E w)) = log w ++ t /\
    mapped_ptrs t = [xen_grant_table (hvm (snd (hvm_map_grant H E w)))].
Proof.
  intros Hok.
  destruct (hvm_map_grant_run H E w Hok) as [_ [_ [_ [_ Hrun]]]].
  rewrite Hrun. cbn [hvm log]. eexists. split.
  - rewrite <- !app_assoc. reflexivity.
  - cbn [app mapped_ptrs]. rewrite mapped_ptrs_add_requests.
    rewrite <- !app_assoc. reflexivity.
Qed.

Lemma hvm_map_xenstore_maps (H : headers) (E : env) (w : world) :
  fst (hvm_map_xenstore H E w) = RC_OK ->
  exists t : trace,
    log (snd (hvm_map_xenstore H E w)) = log w ++ t /\
    mapped_ptrs t = [xen_store_intf (hvm (snd (hvm_map_xenstore H E w)))].
Proof.
  unfold hvm_map_xenstore. run.
  match goal with |- context [negb ?c] => destruct c end;
    [|cbn; discriminate]. cbn [negb fst snd hvm log].
  match goal with |- context [negb ?c] => destruct c end;
    [|cbn; discriminate]. cbn [negb fst snd hvm log].
  match goal with |- context [ioremap E ?h ?a ?l] =>
    destruct (ioremap E h a l =? NULL)
  end; [cbn; discriminate|].
  cbn [fst snd hvm log].
  match goal with |- context [xenstore_read E ?h ?k] =>
    destruct (xenstore_read E h k)
  end; cbn [fst snd hvm log]; [|discriminate].
  intros _. eexists. split.
  - rewrite <- !app_assoc. reflexivity.
  - cbn [app mapped_ptrs xen_store_intf set_xen_store_intf].
    rewrite <- !app_assoc. reflexivity.
Qed.

Lemma shared_ptr_kept (H : headers) (E : env) (p : Z) :
  preserves (fun d => xen_shared d = p) (hvm_map_grant H E) /\
  preserves (fun d => xen_shared d = p) (hvm_map_xenstore H E).
Proof. unfold hvm_map_grant, hvm_map_xenstore. split; frame. Qed.

Lemma grant_ptr_kept (H : headers) (E : env) (p : Z) :
  preserves (fun d => xen_grant_table d = p) (hvm_map_xenstore H E).
Proof. unfold hvm_map_xenstore. frame. Qed.

(** X16.  A detach undoes the mappings of the attach, newest first.  A
    successful [hvm_probe] obtains exactly three virtual mappings from
    [ioremap], those it stores as shared-info page, grant table and
    XenStore page, in this order; [hvm_remove], run later on the
    structure it registered, hands exactly these three pointers to
    [iounmap], in the reverse order. *)
Theorem hvm_remove_unmaps_probe_mappings (H : headers) (E : env)
    (w : world) (later : trace) :
  fst (hvm_probe H E w) = RC_OK ->
  let w1 := snd (hvm_probe H E w) in
  let w2 := {| hvm := hvm w1; log := later |} in
  mapped_ptrs (since w w1) =
    [ xen_shared (hvm w1); xen_grant_table (hvm w1);
      xen_store_intf (hvm w1) ] /\
  unmapped_ptrs (since w2 (snd (hvm_remove H E w2))) =
    rev (mapped_ptrs (since w w1)).
Proof.
  cbv zeta. intros Hok.
  assert (Hmapped :
    mapped_ptrs (since w (snd (hvm_probe H E w))) =
      [ xen_shared (hvm (snd (hvm_probe H E w)));
        xen_grant_table (hvm (snd (hvm_probe H E w)));
        xen_store_intf (hvm (snd (hvm_probe H E w))) ]).
  { revert Hok. rewrite hvm_probe_undo_stack. unfold probe_with_undo.
    rewrite bind_run.
    destruct (zalloc E (log w)) eqn:Hz.
    2:{ unfold hvm_probe_init. run. rewrite Hz. cbn. discriminate. }
    rewrite (hvm_probe_init_run H E w Hz). cbn [fst snd negb].
    rewrite bind_run.
    match goal with
    | |- context [attach_with_undo (hvm_stages H E) [] ?w0] =>
        set (w0' := w0);
        assert (Hl0 : exists t, log w0' = log w ++ t /\ mapped_ptrs t = [])
          by (eexists; split; [reflexivity | reflexivity]);
        clearbody w0';
        destruct (attach_with_undo (hvm_stages H E) [] w0') as [[|e] w1]
          eqn:Hatt
    end; cbn [fst snd].
    2:{ unfold free_hvm. run. discriminate. }
    intros _. run.
    apply attach_with_undo_ok in Hatt.
    cbn [acquire_all hvm_stages acquire] in Hatt.
    destruct Hl0 as [t0 [Hl0 Hm0]].
    destruct (quiet_hvm_cpuid_scan H E (hvm_cpuid_fuel H)
                (u32 (HVM_CPUID_MIN H)) w0') as [ta [Hla Hqa]].
    fold (hvm_cpuid_base H E) in Hla.
    destruct (hvm_cpuid_base H E w0') as [[|e1] wa]; [|discriminate].
    destruct (quiet_hvm_map_hypercall H E wa) as [tb [Hlb Hqb]].
    destruct (hvm_map_hypercall H E wa) as [[|e2] wb]; [|discriminate].
    pose proof (hvm_map_shared_info_maps H E wb) as Hsh.
    destruct (hvm_map_shared_info H E wb) as [[|e3] wc]; [|discriminate].
    pose proof (hvm_map_grant_maps H E wc) as Hgr.
    pose proof (proj1 (shared_ptr_kept H E (xen_shared (hvm wc))) wc eq_refl)
      as Hk1.
    destruct (hvm_map_grant H E wc) as [[|e4] wd]; [|discriminate].
    pose proof (hvm_map_xenstore_maps H E wd) as Hxs.
    pose proof (proj2 (shared_ptr_kept H E (xen_shared (hvm wc))) wd) as Hk2.
    pose proof (grant_ptr_kept H E (xen_grant_table (hvm wd)) wd eq_refl)
      as Hk3.
    destruct (hvm_map_xenstore H E wd) as [[|e5] we]; [|discriminate].
    revert Hatt. unfold call. cbn [fst snd hvm log].
    destruct (xenbus_probe E (log we)); [|discriminate].
    intros Hatt. injection Hatt as <-.
    cbn [fst snd hvm log] in *.
    destruct (Hsh eq_refl) as [tc [Hlc Hmc]].
    destruct (Hgr eq_refl) as [td [Hld Hmd]].
    destruct (Hxs eq_refl) as [te [Hle Hme]].
    specialize (Hk2 Hk1).
    rewrite (since_log w _
               (t0 ++ ta ++ tb ++ tc ++ td ++ te ++
                [EvXenbusProbe RC_OK; EvPciSetDrvdata])).
    - rewrite !mapped_ptrs_app, Hm0, Hmc, Hmd, Hme.
      rewrite (mapped_ptrs_quiet ta Hqa), (mapped_ptrs_quiet tb Hqb).
      cbn. rewrite Hk2, Hk3. reflexivity.
    - cbn [log]. rewrite Hle, Hld, Hlc, Hlb, Hla, Hl0.
      rewrite <- !app_assoc. reflexivity. }
  split; [exact Hmapped|].
  rewrite Hmapped.
  destruct (hvm_remove_run H E
              {| hvm := hvm (snd (hvm_probe H E w)); log := later |})
    as [ga [sa [_ [_ Hrun]]]].
  cbv zeta in Hrun. rewrite Hrun. cbn [snd hvm]. rewrite since_app.
  rewrite !unmapped_ptrs_app, !unmapped_ptrs_remove_requests.
  reflexivity.
Qed.

(** Attach and detach on an accepting hypervisor. *)
Lemma hvm_remove_unmaps_probe_mappings_witness :
  unmapped_ptrs
    (since {| hvm := hvm (snd (hvm_probe ipxe_headers good_env world0));
              log := [] |}
       (snd (hvm_remove ipxe_headers good_env
               {| hvm := hvm (snd (hvm_probe ipxe_headers good_env world0));
                  log := [] |}))) =
  rev (mapped_ptrs
         (since world0 (snd (hvm_probe ipxe_headers good_env world0)))).
Proof.
  apply (hvm_remove_unmaps_probe_mappings ipxe_headers good_env world0 []).
  vm_compute. reflexivity.
Defined.

(** ** Mappers that fail *)

(** X17.  A mapper that fails consumes nothing of the window.  When
    [hvm_map_shared_info] fails, the structure is as before except that
    its shared-info pointer is NULL.  When [hvm_map_grant] fails, the
    structure is either untouched (a hypercall failed or the version was
    refused) or as before except that its grant-table pointer is NULL (the
    mapping failed); the bump offset and the entry count are never
    changed. *)
Theorem hvm_map_failure_state (H : headers) (E : env) (w : world) :
  (fst (hvm_map_shared_info H E w) <> RC_OK ->
   hvm (snd (hvm_map_shared_info H E w)) = set_xen_shared NULL (hvm w))
  /\
  (fst (hvm_map_grant H E w) <> RC_OK ->
   hvm (snd (hvm_map_grant H E w)) = hvm w \/
   hvm (snd (hvm_map_grant H E w)) = set_xen_grant_table NULL (hvm w)).
Proof.
  split.
  - unfold hvm_map_shared_info. rewrite bind_run.
    destruct (hvm_ioremap_cases H E (XENMAPSPACE_shared_info H) 1 w)
      as [[Hr Hd]|[Hr _]];
      destruct (hvm_ioremap H E (XENMAPSPACE_shared_info H) 1 w) as [p w1];
      cbn [fst snd] in *; run.
    + subst p. cbn [Z.eqb NULL fst snd hvm]. rewrite Hd. reflexivity.
    + apply Z.eqb_neq in Hr. rewrite Hr. cbn [fst snd]. congruence.
  - unfold hvm_map_grant. run.
    destruct (negb (fst (xengrant_query_size E (log w) (DOMID_SELF H)) =? 0));
      [left; reflexivity|].
    match goal with |- context [xengrant_set_version E ?h 2] =>
      destruct (negb (fst (xengrant_set_version E h 2) =? 0));
        [left; reflexivity|];
      destruct (negb (u32 (snd (xengrant_set_version E h 2)) =? 2));
        [left; reflexivity|]
    end.
    match goal with |- context [hvm_ioremap H E ?s ?n ?w0] =>
      destruct (hvm_ioremap_cases H E s n w0) as [[Hr Hd]|[Hr _]];
      destruct (hvm_ioremap H E s n w0) as [p w1]
    end; cbn [fst snd hvm log] in *.
    + subst p. cbn [Z.eqb NULL fst snd hvm]. rewrite Hd. intros _.
      right. reflexivity.
    + apply Z.eqb_neq in Hr. rewrite Hr. cbn [fst snd]. congruence.
Qed.

(** A rejected shared-info page and a refused grant-table version. *)
Lemma hvm_map_failure_state_witness :
  hvm (snd (hvm_map_shared_info ipxe_headers rejecting_env
              (window_world 0x1000))) =
    set_xen_shared NULL (hvm (window_world 0x1000))
  /\
  (hvm (snd (hvm_map_grant ipxe_headers rejecting_env
               (window_world 0x1000))) = hvm (window_world 0x1000) \/
   hvm (snd (hvm_map_grant ipxe_headers rejecting_env
               (window_world 0x1000))) =
     set_xen_grant_table NULL (hvm (window_world 0x1000))).
Proof.
  split.
  - apply (proj1 (hvm_map_failure_state ipxe_headers rejecting_env
                    (window_world 0x1000))).
    vm_compute. discriminate.
  - apply (proj2 (hvm_map_failure_state ipxe_headers rejecting_env
                    (window_world 0x1000))).
    vm_compute. discriminate.
Defined.
